(** * gsv/server: the dual-protocol service host (grpc_server.go)
    A shallow embedding of [server/grpc_server.go]: the [grpcServer] struct,
    [newGrpcServer], [Register], [Run], the two serving units [run] and
    [runGateway], the gateway middlewares and [findListenOn].
    External collaborators (the gRPC server, net/http, the discovery
    registrar, the caller's gateway-binding functions) are observed through
    the calls the code makes on them: every function of the host returns the
    list of calls it made, in program order, next to its result.  What those
    collaborators answer is read from a [World] record. *)

From stdpp Require Import base list strings.
From Stdlib Require Import ZArith Lia.

Local Open Scope string_scope.
Local Open Scope Z_scope.
Local Open Scope list_scope.

(** A Go [error] value, by its message; [None] is [nil]. *)
Definition error := string.

(** ** Types of the imported packages *)

(** [grpc.ServiceDesc]: one method binding, known by its service name. *)
Record ServiceDesc := { ServiceName : string }.

(** [*grpc.ClientConn]: the target the connection was dialed to,
    [fmt.Sprintf("127.0.0.1:%d", port)]. *)
Record ClientConn := { cc_host : string; cc_port : Z }.

(** [*runtime.ServeMux]: the gateway's route table, a handle made by
    [runtime.NewServeMux()]. *)
Inductive ServeMux := NewServeMux.

(** One element of [Description.GrpcGateway]:
    [func(ctx context.Context, mux *runtime.ServeMux, conn *grpc.ClientConn) error].
    [gw_call] is handed the mux pointer as the code passes it ([None] is a
    nil pointer) and the loopback connection. *)
Record GatewayFn := {
  gw_name : string;
  gw_call : option ServeMux -> ClientConn -> option error
}.

(** Modelled from the spec: [service.Description] is declared in package
    [service], which is not part of the sources at hand.  The fields are the
    ones [Register] and [Run] read: [Valid], [GrpcServiceDesc] (the spec's
    methodBindings) and [GrpcGateway] (the spec's gatewayBindings). *)
Record Description := {
  Valid : bool;
  GrpcServiceDesc : list ServiceDesc;
  GrpcGateway : list GatewayFn
}.

(** Modelled from the spec: [service.Service], an opaque business object
    exposing a descriptor; [srv_name] is its identity. *)
Record Service := {
  srv_name : string;
  srv_description : Description
}.

(** [srv.Description()] *)
Definition Description_of (srv : Service) : Description := srv_description srv.

(** Modelled from the spec: [discovery.GRPC] and [discovery.HTTP], the two
    protocols of a Node. *)
Inductive NodeType := GRPC | HTTP.

Global Instance NodeType_eq_dec : EqDecision NodeType.
Proof. solve_decision. Defined.

(** Modelled from the spec: the discovery Node
    [{host, port, protocol, serviceIdentity}]. *)
Record Node := {
  node_host : string;
  node_port : Z;
  node_type : NodeType;
  node_service : Service
}.

(** Modelled from the spec: [discovery.NewNode(host, port, type, srv)]
    builds the Node record from its four arguments. *)
Definition NewNode (host : string) (port : Z) (t : NodeType) (srv : Service) : Node :=
  {| node_host := host; node_port := port; node_type := t; node_service := srv |}.

(** [discovery.Register]: the registrar interface, [Register(node) error]. *)
Definition Registrar := Node -> option error.

(** [*grpc.Server]: the options it was built with and the services bound
    to it by [RegisterService], oldest first. *)
Inductive ServerOption :=
| WithUnaryServerChain (chain : list string)
| WithStreamServerChain (chain : list string)
| StatsHandler (h : string).

Record GrpcSrv := {
  srv_opts : list ServerOption;
  srv_bound : list (ServiceDesc * Service)
}.

Definition grpc_NewServer (opts : list ServerOption) : GrpcSrv :=
  {| srv_opts := opts; srv_bound := [] |}.

Definition RegisterService (g : GrpcSrv) (d : ServiceDesc) (impl : Service) : GrpcSrv :=
  {| srv_opts := srv_opts g; srv_bound := srv_bound g ++ [(d, impl)] |}.

(** [*http.Server]: [Addr] is [fmt.Sprintf(":%d", proxyPort)].  Its
    [Handler] is the middleware chain of section Gateway below. *)
Record HttpServer := { Addr : Z }.

(** ** The host *)

(** [Option], the configuration read by [newGrpcServer]. *)
Record Option := {
  Port : Z;
  ProxyPort : Z;
  StreamInterceptors : list string;
  UnaryInterceptors : list string;
  StatHandler : option string;
  ServerRegister : option Registrar;
  EnableGrpcGateway : bool;
  TraceOption : string
}.

Record grpcServer := {
  host : string;
  port : Z;
  proxyPort : Z;
  gSrv : GrpcSrv;
  streamInterceptors : list string;
  unaryInterceptors : list string;
  statHandler : option string;
  register : option Registrar;
  traceOption : string;
  enableGateway : bool;
  gSrvGateway : option HttpServer;
  gatewayMux : option ServeMux;
  serviceList : list Service
}.

(** [func (gs *grpcServer) findListenOn() string] *)
Definition findListenOn (gs : grpcServer) : string := "".

(** The struct literal of [newGrpcServer]; every other field is zero. *)
Definition newGrpcServer_literal (opt : Option) : grpcServer :=
  {| host := "";
     port := Port opt;
     proxyPort := ProxyPort opt;
     gSrv := grpc_NewServer [];
     streamInterceptors := StreamInterceptors opt;
     unaryInterceptors := UnaryInterceptors opt;
     statHandler := StatHandler opt;
     register := ServerRegister opt;
     traceOption := TraceOption opt;
     enableGateway := EnableGrpcGateway opt;
     gSrvGateway := None;
     gatewayMux := None;
     serviceList := [] |}.

Definition set_host (h : string) (s : grpcServer) : grpcServer :=
  {| host := h; port := port s; proxyPort := proxyPort s; gSrv := gSrv s;
     streamInterceptors := streamInterceptors s;
     unaryInterceptors := unaryInterceptors s; statHandler := statHandler s;
     register := register s; traceOption := traceOption s;
     enableGateway := enableGateway s; gSrvGateway := gSrvGateway s;
     gatewayMux := gatewayMux s; serviceList := serviceList s |}.

Definition set_gSrv (g : GrpcSrv) (s : grpcServer) : grpcServer :=
  {| host := host s; port := port s; proxyPort := proxyPort s; gSrv := g;
     streamInterceptors := streamInterceptors s;
     unaryInterceptors := unaryInterceptors s; statHandler := statHandler s;
     register := register s; traceOption := traceOption s;
     enableGateway := enableGateway s; gSrvGateway := gSrvGateway s;
     gatewayMux := gatewayMux s; serviceList := serviceList s |}.

Definition set_gateway (hs : HttpServer) (m : ServeMux) (s : grpcServer) : grpcServer :=
  {| host := host s; port := port s; proxyPort := proxyPort s; gSrv := gSrv s;
     streamInterceptors := streamInterceptors s;
     unaryInterceptors := unaryInterceptors s; statHandler := statHandler s;
     register := register s; traceOption := traceOption s;
     enableGateway := enableGateway s; gSrvGateway := Some hs;
     gatewayMux := Some m; serviceList := serviceList s |}.

Definition set_enableGateway (b : bool) (s : grpcServer) : grpcServer :=
  {| host := host s; port := port s; proxyPort := proxyPort s; gSrv := gSrv s;
     streamInterceptors := streamInterceptors s;
     unaryInterceptors := unaryInterceptors s; statHandler := statHandler s;
     register := register s; traceOption := traceOption s;
     enableGateway := b; gSrvGateway := gSrvGateway s;
     gatewayMux := gatewayMux s; serviceList := serviceList s |}.

Definition set_serviceList (l : list Service) (s : grpcServer) : grpcServer :=
  {| host := host s; port := port s; proxyPort := proxyPort s; gSrv := gSrv s;
     streamInterceptors := streamInterceptors s;
     unaryInterceptors := unaryInterceptors s; statHandler := statHandler s;
     register := register s; traceOption := traceOption s;
     enableGateway := enableGateway s; gSrvGateway := gSrvGateway s;
     gatewayMux := gatewayMux s; serviceList := l |}.

(** The [opts] slice of [newGrpcServer], built by three guarded appends. *)
Definition newGrpcServer_opts (s : grpcServer) (opt : Option) : list ServerOption :=
  let opts := [] in
  let opts := if bool_decide (0 < length (unaryInterceptors s))%nat
              then opts ++ [WithUnaryServerChain (UnaryInterceptors opt)] else opts in
  let opts := if bool_decide (0 < length (streamInterceptors s))%nat
              then opts ++ [WithStreamServerChain (StreamInterceptors opt)] else opts in
  match statHandler s with
  | Some _ =>
      match StatHandler opt with
      | Some h => opts ++ [StatsHandler h]
      | None => opts
      end
  | None => opts
  end.

(** [func newGrpcServer(opt Option) *grpcServer] *)
Definition newGrpcServer (opt : Option) : grpcServer :=
  let s := newGrpcServer_literal opt in
  let s := set_host (findListenOn s) s in
  let s := set_gSrv (grpc_NewServer (newGrpcServer_opts s opt)) s in
  if enableGateway s
  then set_gateway {| Addr := proxyPort s |} NewServeMux s
  else s.

(** [func (gs *grpcServer) Register(srv service.Service) error]: the error
    returned and the host afterwards. *)
Definition Register (gs : grpcServer) (srv : Service) : option error * grpcServer :=
  let desc := Description_of srv in
  if negb (Valid desc) then (Some "invalid service description", gs)
  else if bool_decide (length (GrpcServiceDesc desc) = 0%nat)
  then (Some "not invalid grpc service desc", gs)
  else (None, set_serviceList (serviceList gs ++ [srv]) gs).

(** [Register] called on each service in turn, errors dropped: the host a
    caller obtains from a sequence of [Register] calls. *)
Definition RegisterAll (gs : grpcServer) (l : list Service) : grpcServer :=
  foldl (fun g s => snd (Register g s)) gs l.

(** The spec's ConfigurationError: an error returned by [Register]. *)
Definition ConfigurationError (r : option error) : Prop := is_Some r.

(** ** Calls on the collaborators *)

Inductive Goroutine := GatewayUnit | BinaryUnit | BinaryWatcher | GatewayWatcher.

(** The log lines of [run] and [runGateway], by format string and argument. *)
Inductive LogMsg :=
| RpcStart (p : Z)          (* "rpc server start listen on: [%d]" *)
| RpcStop (p : Z)           (* "rpc server stop listen on: [%d]" *)
| GatewayStart (p : Z)      (* "rpc server gateway start listen on: [%d]" *)
| GatewayStop (p : Z)       (* "rpc server gateway stop listen on: [%d]" *)
| ShutdownFailed (e : error). (* "failed to shutdown http server: %s" *)

Inductive Event :=
| EvDial (conn : ClientConn)                         (* grpc.Dial(target, opts...) *)
| EvRegisterService (d : ServiceDesc) (impl : Service) (* gs.gSrv.RegisterService(&d, impl) *)
| EvGatewayBind (name : string) (mux : option ServeMux) (conn : ClientConn)
                                                     (* f(context.Background(), mux, conn) *)
| EvListen (p : Z) (bound : bool)                    (* net.Listen("tcp", ":p") *)
| EvGo (g : Goroutine)                               (* go func() { ... }() *)
| EvDiscovery (n : Node)                             (* gs.register.Register(node) *)
| EvLog (m : LogMsg)                                 (* logger.Info / logger.Error *)
| EvServe                                            (* gs.gSrv.Serve(lis) *)
| EvHttpListen (p : Z) (bound : bool)                (* the bind inside ListenAndServe *)
| EvHttpServe                                        (* the accept loop inside ListenAndServe *)
| EvGracefulStop                                     (* gs.gSrv.GracefulStop() *)
| EvShutdown.                                        (* gs.gSrvGateway.Shutdown(ctx) *)

(** How a piece of straight-line code ends: it falls through with a value,
    calls [log.Fatal] (the process exits), or panics. *)
Inductive Res (A : Type) :=
| Ok (a : A)
| Fatal (e : error)
| Panic (msg : string).
Arguments Ok {A} a.
Arguments Fatal {A} e.
Arguments Panic {A} msg.

(** Calls made so far, and how the code ended. *)
Definition M (A : Type) : Type := list Event * Res A.

Definition ret {A} (a : A) : M A := ([], Ok a).
Definition emit (e : Event) : M unit := ([e], Ok tt).
Definition fatal {A} (e : error) : M A := ([], Fatal e).
Definition panic {A} (msg : string) : M A := ([], Panic msg).

Definition bind {A B} (m : M A) (k : A -> M B) : M B :=
  match m with
  | (t, Ok a) => let '(t', r) := k a in (t ++ t', r)
  | (t, Fatal e) => (t, Fatal e)
  | (t, Panic msg) => (t, Panic msg)
  end.

Global Arguments bind : simpl never.

Global Instance M_ret : MRet M := fun A a => ret a.
Global Instance M_bind : MBind M := fun A B k m => bind m k.

(** What the collaborators answer during one [Run]. *)
Inductive HttpResult :=
| ClosedBeforeListen          (* ErrServerClosed: Shutdown came first, nothing was bound *)
| BindFailed (e : error)      (* the listen inside ListenAndServe failed *)
| ServeFailed (e : error)     (* bound, then the accept loop failed *)
| ServerClosed.               (* bound and served; ErrServerClosed after Shutdown *)

Record World := {
  dial_err : option error;      (* grpc.Dial *)
  listen_err : option error;    (* net.Listen *)
  serve_err : option error;     (* gs.gSrv.Serve: nil after GracefulStop *)
  http_result : HttpResult;     (* gs.gSrvGateway.ListenAndServe *)
  shutdown_err : option error   (* gs.gSrvGateway.Shutdown *)
}.

(** ** Run, lines 121-138: the loopback dial and the binding loop *)

(** [for _, f := range desc.GrpcGateway { if err := f(...); err != nil { log.Fatal } }] *)
Fixpoint gatewayLoop (mux : option ServeMux) (conn : ClientConn)
    (fs : list GatewayFn) : M unit :=
  match fs with
  | [] => ret tt
  | f :: fs' =>
      emit (EvGatewayBind (gw_name f) mux conn) ;;
      match gw_call f mux conn with
      | Some e => fatal e
      | None => gatewayLoop mux conn fs'
      end
  end.

(** The body of [for i := range gs.serviceList], from index [i] on; [l] is
    [gs.serviceList[i:]] and [g] the gRPC server so far.  The slice index
    [desc.GrpcServiceDesc[i]] panics out of range. *)
Fixpoint bindLoop (mux : option ServeMux) (conn : ClientConn) (i : nat)
    (l : list Service) (g : GrpcSrv) : M GrpcSrv :=
  match l with
  | [] => ret g
  | srv :: rest =>
      let desc := Description_of srv in
      match GrpcServiceDesc desc !! i with
      | None => panic "index out of range"
      | Some d =>
          emit (EvRegisterService d srv) ;;
          gatewayLoop mux conn (GrpcGateway desc) ;;
          bindLoop mux conn (S i) rest (RegisterService g d srv)
      end
  end.

(** The target of the loopback dial, [fmt.Sprintf("127.0.0.1:%d", gs.port)]. *)
Definition loopback (gs : grpcServer) : ClientConn :=
  {| cc_host := "127.0.0.1"; cc_port := port gs |}.

(** [grpc.Dial(fmt.Sprintf("127.0.0.1:%d", gs.port), opts...)] and its check. *)
Definition dial (gs : grpcServer) (w : World) : M ClientConn :=
  let conn := loopback gs in
  emit (EvDial conn) ;;
  match dial_err w with
  | Some e => fatal e
  | None => ret conn
  end.

(** [Run] up to the [sync.WaitGroup]: the host with its gRPC server
    updated. *)
Definition RunSetup (gs : grpcServer) (w : World) : M grpcServer :=
  conn ← dial gs w;
  g ← bindLoop (gatewayMux gs) conn 0 (serviceList gs) (gSrv gs);
  ret (set_gSrv g gs).

(** ** The serving units *)

(** [for i := range gs.serviceList { node := NewNode(...); if err := Register(node) ... return err }] *)
Fixpoint discoveryLoop (reg : Registrar) (h : string) (p : Z) (t : NodeType)
    (l : list Service) : list Event * option error :=
  match l with
  | [] => ([], None)
  | srv :: rest =>
      let node := NewNode h p t srv in
      match reg node with
      | Some e => ([EvDiscovery node], Some e)
      | None =>
          let '(tr, r) := discoveryLoop reg h p t rest in
          (EvDiscovery node :: tr, r)
      end
  end.

(** [if gs.register != nil { for ... }] *)
Definition discovery (gs : grpcServer) (p : Z) (t : NodeType) : list Event * option error :=
  match register gs with
  | None => ([], None)
  | Some reg => discoveryLoop reg (host gs) p t (serviceList gs)
  end.

(** [run] up to its [Serve] call: the listen, the watcher goroutine, the
    registration loop and the log line.  [Some e] is the error [run]
    returns there; [None] means it goes on to serve. *)
Definition run_startup (gs : grpcServer) (w : World) : list Event * option error :=
  match listen_err w with
  | Some e => ([EvListen (port gs) false], Some e)
  | None =>
      let pre := [EvListen (port gs) true; EvGo BinaryWatcher] in
      match discovery gs (port gs) GRPC with
      | (tr, Some e) => (pre ++ tr, Some e)
      | (tr, None) => (pre ++ tr ++ [EvLog (RpcStart (port gs))], None)
      end
  end.

(** [func (gs *grpcServer) run(ctx context.Context) error]: the calls of
    the binary-serve unit and the error it returns. *)
Definition run (gs : grpcServer) (w : World) : list Event * option error :=
  match run_startup gs w with
  | (tr, Some e) => (tr, Some e)
  | (tr, None) => (tr ++ [EvServe], serve_err w)
  end.

(** [runGateway] between its nil check and its [ListenAndServe] call. *)
Definition runGateway_startup (gs : grpcServer) : list Event * option error :=
  let pre := [EvGo GatewayWatcher] in
  match discovery gs (proxyPort gs) HTTP with
  | (tr, Some e) => (pre ++ tr, Some e)
  | (tr, None) => (pre ++ tr ++ [EvLog (GatewayStart (proxyPort gs))], None)
  end.

(** [if err := gs.gSrvGateway.ListenAndServe(); err != http.ErrServerClosed { return err }; return nil] *)
Definition listenAndServe (hs : HttpServer) (w : World) : list Event * option error :=
  match http_result w with
  | ClosedBeforeListen => ([], None)
  | BindFailed e => ([EvHttpListen (Addr hs) false], Some e)
  | ServeFailed e => ([EvHttpListen (Addr hs) true; EvHttpServe], Some e)
  | ServerClosed => ([EvHttpListen (Addr hs) true; EvHttpServe], None)
  end.

(** [func (gs *grpcServer) runGateway(ctx context.Context) error] *)
Definition runGateway (gs : grpcServer) (w : World) : list Event * option error :=
  match gSrvGateway gs with
  | None => ([], None)
  | Some hs =>
      match runGateway_startup gs with
      | (tr, Some e) => (tr, Some e)
      | (tr, None) =>
          let '(tr', r) := listenAndServe hs w in (tr ++ tr', r)
      end
  end.

(** The watcher goroutine of [run]: after [<-ctx.Done()]. *)
Definition binaryWatcher (gs : grpcServer) : list Event :=
  [EvLog (RpcStop (port gs)); EvGracefulStop].

(** The watcher goroutine of [runGateway], after [<-ctx.Done()]: up to and
    with its [Shutdown] call, and once [Shutdown] has returned; a [Shutdown]
    error is logged and dropped. *)
Definition gatewayWatcher_begin (gs : grpcServer) : list Event :=
  [EvLog (GatewayStop (proxyPort gs)); EvShutdown].

Definition gatewayWatcher_end (w : World) : list Event :=
  match shutdown_err w with
  | Some e => [EvLog (ShutdownFailed e)]
  | None => []
  end.


(** ** Run, lines 140-161, as a function of what the units return
    [rr_gateway] and [rr_binary] are the calls of the two goroutines when
    each runs to its end, and [rr_outcome] tells whether [wg.Wait()] and
    with it [Run] returns.  When a unit returns an error its goroutine calls
    [log.Fatal] and the process exits. *)
Inductive RunOutcome :=
| Returns (gs : grpcServer)
| Exits (msgs : list string)   (* the [log.Fatal] calls that are made *)
| Panics (msg : string).

Record RunReport := {
  rr_setup : list Event;
  rr_gateway : option (list Event * option error);
  rr_binary : option (list Event * option error);
  rr_outcome : RunOutcome
}.

Definition fatal_of (pfx : string) (r : option error) : list string :=
  match r with
  | Some e => [pfx +:+ e]
  | None => []
  end.

Definition Run (gs : grpcServer) (w : World) : RunReport :=
  match RunSetup gs w with
  | (tr, Fatal e) =>
      {| rr_setup := tr; rr_gateway := None; rr_binary := None;
         rr_outcome := Exits [e] |}
  | (tr, Panic msg) =>
      {| rr_setup := tr; rr_gateway := None; rr_binary := None;
         rr_outcome := Panics msg |}
  | (tr, Ok gs') =>
      let gw := if enableGateway gs' then Some (runGateway gs' w) else None in
      let bin := run gs' w in
      let msgs :=
        match gw with
        | Some (_, r) => fatal_of "server gateway run error:" r
        | None => []
        end ++ fatal_of "server run error:" (snd bin) in
      {| rr_setup := tr ++ (if enableGateway gs' then [EvGo GatewayUnit] else [])
                        ++ [EvGo BinaryUnit];
         rr_gateway := gw;
         rr_binary := Some bin;
         rr_outcome := match msgs with [] => Returns gs' | _ => Exits msgs end |}
  end.

(** ** Run, lines 140-161: the goroutines, step by step

    The [sync.WaitGroup], the two serving goroutines and their watchers as a
    transition system over the host that [RunSetup] leaves.  A unit's step
    runs the unit's code up to its next blocking call. *)

(** Where [Run] itself stands. *)
Inductive MainPc :=
| AtGatewayGo   (* at [if gs.enableGateway { wg.Add(1); go ... }] *)
| AtBinaryGo    (* at [wg.Add(1); go ...] *)
| AtWait        (* at [wg.Wait()] *)
| AtReturn.     (* [wg.Wait()] has returned, and [Run] with it *)

(** A serving goroutine: not started, started, blocked in its serve call,
    or finished (its deferred [wg.Done()] has run). *)
Inductive UnitState := Idle | Started | Serving | Finished.

(** A watcher goroutine: not spawned, blocked on [<-ctx.Done()], inside
    its stop call ([Stopping], the gateway watcher in [Shutdown]), or done. *)
Inductive WatcherState := NotSpawned | Waiting | Stopping | Fired.

Record Sys := {
  sys_pc : MainPc;
  sys_wg : nat;                  (* the WaitGroup counter *)
  sys_gateway : UnitState;
  sys_binary : UnitState;
  sys_gatewayWatcher : WatcherState;
  sys_binaryWatcher : WatcherState;
  sys_cancelled : bool;          (* [ctx.Done()] is closed *)
  sys_exited : bool;             (* [log.Fatal] has ended the process *)
  sys_calls : list Event         (* the calls of all goroutines, as they came *)
}.

Definition Sys_init : Sys :=
  {| sys_pc := AtGatewayGo; sys_wg := 0; sys_gateway := Idle; sys_binary := Idle;
     sys_gatewayWatcher := NotSpawned; sys_binaryWatcher := NotSpawned;
     sys_cancelled := false; sys_exited := false; sys_calls := [] |}.

Definition set_pc (v : MainPc) (s : Sys) : Sys :=
  {| sys_pc := v; sys_wg := sys_wg s; sys_gateway := sys_gateway s;
     sys_binary := sys_binary s; sys_gatewayWatcher := sys_gatewayWatcher s;
     sys_binaryWatcher := sys_binaryWatcher s; sys_cancelled := sys_cancelled s;
     sys_exited := sys_exited s; sys_calls := sys_calls s |}.

Definition set_wg (v : nat) (s : Sys) : Sys :=
  {| sys_pc := sys_pc s; sys_wg := v; sys_gateway := sys_gateway s;
     sys_binary := sys_binary s; sys_gatewayWatcher := sys_gatewayWatcher s;
     sys_binaryWatcher := sys_binaryWatcher s; sys_cancelled := sys_cancelled s;
     sys_exited := sys_exited s; sys_calls := sys_calls s |}.

Definition set_gateway_unit (v : UnitState) (s : Sys) : Sys :=
  {| sys_pc := sys_pc s; sys_wg := sys_wg s; sys_gateway := v;
     sys_binary := sys_binary s; sys_gatewayWatcher := sys_gatewayWatcher s;
     sys_binaryWatcher := sys_binaryWatcher s; sys_cancelled := sys_cancelled s;
     sys_exited := sys_exited s; sys_calls := sys_calls s |}.

Definition set_binary_unit (v : UnitState) (s : Sys) : Sys :=
  {| sys_pc := sys_pc s; sys_wg := sys_wg s; sys_gateway := sys_gateway s;
     sys_binary := v; sys_gatewayWatcher := sys_gatewayWatcher s;
     sys_binaryWatcher := sys_binaryWatcher s; sys_cancelled := sys_cancelled s;
     sys_exited := sys_exited s; sys_calls := sys_calls s |}.

Definition set_gatewayWatcher (v : WatcherState) (s : Sys) : Sys :=
  {| sys_pc := sys_pc s; sys_wg := sys_wg s; sys_gateway := sys_gateway s;
     sys_binary := sys_binary s; sys_gatewayWatcher := v;
     sys_binaryWatcher := sys_binaryWatcher s; sys_cancelled := sys_cancelled s;
     sys_exited := sys_exited s; sys_calls := sys_calls s |}.

Definition set_binaryWatcher (v : WatcherState) (s : Sys) : Sys :=
  {| sys_pc := sys_pc s; sys_wg := sys_wg s; sys_gateway := sys_gateway s;
     sys_binary := sys_binary s; sys_gatewayWatcher := sys_gatewayWatcher s;
     sys_binaryWatcher := v; sys_cancelled := sys_cancelled s;
     sys_exited := sys_exited s; sys_calls := sys_calls s |}.

Definition set_cancelled (v : bool) (s : Sys) : Sys :=
  {| sys_pc := sys_pc s; sys_wg := sys_wg s; sys_gateway := sys_gateway s;
     sys_binary := sys_binary s; sys_gatewayWatcher := sys_gatewayWatcher s;
     sys_binaryWatcher := sys_binaryWatcher s; sys_cancelled := v;
     sys_exited := sys_exited s; sys_calls := sys_calls s |}.

(** [log.Fatal]: the process exits, no goroutine moves again. *)
Definition log_Fatal (s : Sys) : Sys :=
  {| sys_pc := sys_pc s; sys_wg := sys_wg s; sys_gateway := sys_gateway s;
     sys_binary := sys_binary s; sys_gatewayWatcher := sys_gatewayWatcher s;
     sys_binaryWatcher := sys_binaryWatcher s; sys_cancelled := sys_cancelled s;
     sys_exited := true; sys_calls := sys_calls s |}.

Definition called (tr : list Event) (s : Sys) : Sys :=
  {| sys_pc := sys_pc s; sys_wg := sys_wg s; sys_gateway := sys_gateway s;
     sys_binary := sys_binary s; sys_gatewayWatcher := sys_gatewayWatcher s;
     sys_binaryWatcher := sys_binaryWatcher s; sys_cancelled := sys_cancelled s;
     sys_exited := sys_exited s; sys_calls := sys_calls s ++ tr |}.

(** [wg.Add(1)] and the deferred [wg.Done()]. *)
Definition wg_Add (s : Sys) : Sys := set_wg (S (sys_wg s)) s.
Definition wg_Done (s : Sys) : Sys := set_wg (pred (sys_wg s)) s.

(** Who moves: [Run] itself, one of the four goroutines, or the caller
    cancelling the context. *)
Inductive Actor := RunBody | CancelCtx | Go (g : Goroutine).

(** [Run] itself, lines 142-160. *)
Definition step_RunBody (gs : grpcServer) (s : Sys) : option Sys :=
  match sys_pc s with
  | AtGatewayGo =>
      if enableGateway gs
      then Some (set_pc AtBinaryGo
                   (set_gateway_unit Started (called [EvGo GatewayUnit] (wg_Add s))))
      else Some (set_pc AtBinaryGo s)
  | AtBinaryGo =>
      Some (set_pc AtWait
              (set_binary_unit Started (called [EvGo BinaryUnit] (wg_Add s))))
  | AtWait =>
      if bool_decide (sys_wg s = 0%nat) then Some (set_pc AtReturn s) else None
  | AtReturn => None
  end.

(** The goroutine of lines 153-158 around [run]: [Serve] returns nil only
    once [GracefulStop] has been called and is done. *)
Definition step_binary (gs : grpcServer) (w : World) (s : Sys) : option Sys :=
  match sys_binary s with
  | Started =>
      match run_startup gs w with
      | (tr, Some e) => Some (log_Fatal (called tr s))
      | (tr, None) =>
          Some (set_binary_unit Serving (set_binaryWatcher Waiting (called tr s)))
      end
  | Serving =>
      match serve_err w with
      | Some e => Some (log_Fatal (called [EvServe] s))
      | None =>
          match sys_binaryWatcher s with
          | Fired => Some (set_binary_unit Finished (wg_Done (called [EvServe] s)))
          | _ => None
          end
      end
  | _ => None
  end.

(** The goroutine of lines 144-149 around [runGateway]: [ListenAndServe]
    returns [ErrServerClosed] as soon as [Shutdown] has been called, whether
    or not [Shutdown] has returned yet. *)
Definition step_gateway (gs : grpcServer) (w : World) (s : Sys) : option Sys :=
  match sys_gateway s with
  | Started =>
      match gSrvGateway gs with
      | None => Some (set_gateway_unit Finished (wg_Done s))
      | Some hs =>
          match runGateway_startup gs with
          | (tr, Some e) => Some (log_Fatal (called tr s))
          | (tr, None) =>
              Some (set_gateway_unit Serving (set_gatewayWatcher Waiting (called tr s)))
          end
      end
  | Serving =>
      match gSrvGateway gs with
      | None => None
      | Some hs =>
          match listenAndServe hs w with
          | (tr, Some e) => Some (log_Fatal (called tr s))
          | (tr, None) =>
              match sys_gatewayWatcher s with
              | Stopping | Fired =>
                  Some (set_gateway_unit Finished (wg_Done (called tr s)))
              | _ => None
              end
          end
      end
  | _ => None
  end.

(** The watchers: blocked until the context is cancelled. *)
Definition step_binaryWatcher (gs : grpcServer) (s : Sys) : option Sys :=
  match sys_binaryWatcher s with
  | Waiting =>
      if sys_cancelled s
      then Some (set_binaryWatcher Fired (called (binaryWatcher gs) s))
      else None
  | _ => None
  end.

Definition step_gatewayWatcher (gs : grpcServer) (w : World) (s : Sys) : option Sys :=
  match sys_gatewayWatcher s with
  | Waiting =>
      if sys_cancelled s
      then Some (set_gatewayWatcher Stopping (called (gatewayWatcher_begin gs) s))
      else None
  | Stopping =>
      Some (set_gatewayWatcher Fired (called (gatewayWatcher_end w) s))
  | _ => None
  end.

(** One step of one actor; [None] when the actor cannot move. *)
Definition step (gs : grpcServer) (w : World) (a : Actor) (s : Sys) : option Sys :=
  if sys_exited s then None
  else
    match a with
    | RunBody => step_RunBody gs s
    | CancelCtx => Some (set_cancelled true s)
    | Go GatewayUnit => step_gateway gs w s
    | Go BinaryUnit => step_binary gs w s
    | Go BinaryWatcher => step_binaryWatcher gs s
    | Go GatewayWatcher => step_gatewayWatcher gs w s
    end.

(** A schedule, run from [s]. *)
Fixpoint exec (gs : grpcServer) (w : World) (sched : list Actor) (s : Sys) : option Sys :=
  match sched with
  | [] => Some s
  | a :: rest =>
      match step gs w a s with
      | Some s' => exec gs w rest s'
      | None => None
      end
  end.


(** A unit that has been started and has not finished holds one count of
    the WaitGroup. *)
Definition active (u : UnitState) : nat :=
  match u with
  | Started | Serving => 1
  | Idle | Finished => 0
  end.

(** The WaitGroup counter counts the unfinished units. *)
Definition wg_counts (gs : grpcServer) (s : Sys) : Prop :=
  (enableGateway gs = false -> sys_gateway s = Idle) /\
  match sys_pc s with
  | AtGatewayGo =>
      sys_wg s = 0%nat /\ sys_gateway s = Idle /\ sys_binary s = Idle
  | AtBinaryGo =>
      sys_wg s = active (sys_gateway s) /\ sys_binary s = Idle /\
      (enableGateway gs = true -> sys_gateway s <> Idle)
  | AtWait =>
      sys_wg s = (active (sys_gateway s) + active (sys_binary s))%nat /\
      sys_binary s <> Idle /\
      (enableGateway gs = true -> sys_gateway s <> Idle)
  | AtReturn =>
      sys_wg s = 0%nat /\
      sys_binary s = Finished /\
      (enableGateway gs = true -> sys_gateway s = Finished)
  end.

(** ** The gateway's HTTP surface *)

(** [*http.Request] *)
Record Request := { req_method : string; req_path : string }.

(** [http.ResponseWriter] as net/http's server implements it: the status
    line goes out with the first [WriteHeader] or, as 200, with the first
    [Write]; a later [WriteHeader] is ignored. *)
Record ResponseWriter := {
  wroteHeader : bool;
  status : Z;
  body : string
}.

Definition StatusOK : Z := 200.
Definition StatusInternalServerError : Z := 500.

(** The writer a request starts with. *)
Definition new_response : ResponseWriter :=
  {| wroteHeader := false; status := 0; body := "" |}.

Definition WriteHeader (code : Z) (w : ResponseWriter) : ResponseWriter :=
  if wroteHeader w then w
  else {| wroteHeader := true; status := code; body := body w |}.

Definition Write (data : string) (w : ResponseWriter) : ResponseWriter :=
  let w := WriteHeader StatusOK w in
  {| wroteHeader := wroteHeader w; status := status w; body := body w +:+ data |}.

(** What the client receives when the handler is done: status and body. *)
Definition response_of (w : ResponseWriter) : Z * string :=
  (status (WriteHeader StatusOK w), body w).

(** A value passed to [panic] and handed back by [recover()]: a string or
    an [error].  [panic(nil)] is not modelled. *)
Inductive any :=
| AnyString (s : string)
| AnyError (msg : string).

(** [fmt.Sprintf("%v", r)] *)
Definition Sprintf_v (r : any) : string :=
  match r with
  | AnyString s => s
  | AnyError msg => msg
  end.

(** How [ServeHTTP] ends. *)
Inductive Completion := Returned | Panicked (r : any).

(** [http.Handler]: [ServeHTTP(w, r)] over the state [S] of whatever the
    handler closes over; it returns that state and the writer as it left
    them. *)
Definition Handler (S : Type) : Type :=
  ResponseWriter -> Request -> S -> S * ResponseWriter * Completion.

(** [func (gs *grpcServer) recoverMiddleware(h http.Handler) http.Handler] *)
Definition recoverMiddleware {S} (h : Handler S) : Handler S :=
  fun w r st =>
    match h w r st with
    | (st', w', Panicked v) =>
        let w' := WriteHeader StatusInternalServerError w' in
        let w' := Write (Sprintf_v v) w' in
        (st', w', Returned)
    | (st', w', Returned) => (st', w', Returned)
    end.

(** [func (gs *grpcServer) traceMiddleware(h http.Handler) http.Handler] *)
Definition traceMiddleware {S} (h : Handler S) : Handler S :=
  fun w r st => h w r st.

(** The [Handler] field set by [newGrpcServer]:
    [s.recoverMiddleware(s.traceMiddleware(httpMux))]. *)
Definition gatewayHandler {S} (httpMux : Handler S) : Handler S :=
  recoverMiddleware (traceMiddleware httpMux).

(** The HTTP server over a sequence of requests, each on a writer of its
    own.  net/http recovers a panic that escapes the handler and closes the
    connection: that client gets no response ([None]). *)
Fixpoint serveAll {S} (h : Handler S) (st : S) (reqs : list Request)
    : list (option (Z * string)) :=
  match reqs with
  | [] => []
  | r :: rest =>
      match h new_response r st with
      | (st', w, Returned) => Some (response_of w) :: serveAll h st' rest
      | (st', w, Panicked _) => None :: serveAll h st' rest
      end
  end.

(** ** Observations *)

Definition nodes_of (tr : list Event) : list Node :=
  omap (fun e => match e with EvDiscovery n => Some n | _ => None end) tr.

Definition rpc_nodes (tr : list Event) : list Node :=
  filter (fun n => node_type n = GRPC) (nodes_of tr).

Definition http_nodes (tr : list Event) : list Node :=
  filter (fun n => node_type n = HTTP) (nodes_of tr).

Definition bound_of (tr : list Event) : list (ServiceDesc * Service) :=
  omap (fun e => match e with EvRegisterService d s => Some (d, s) | _ => None end) tr.

Definition is_dial (e : Event) : bool :=
  match e with EvDial _ => true | _ => false end.

Definition is_gateway_bind (e : Event) : bool :=
  match e with EvGatewayBind _ _ _ => true | _ => false end.

Definition is_discovery (e : Event) : bool :=
  match e with EvDiscovery _ => true | _ => false end.

Definition is_http_listen (e : Event) : bool :=
  match e with EvHttpListen _ _ => true | _ => false end.

(** Every call [Run] makes, in all three goroutines. *)
Definition all_calls (r : RunReport) : list Event :=
  rr_setup r ++
  match rr_gateway r with Some (t, _) => t | None => [] end ++
  match rr_binary r with Some (t, _) => t | None => [] end.

Definition is_panic {A} (r : Res A) : bool :=
  match r with Panic _ => true | _ => false end.

Definition is_fatal {A} (r : Res A) : bool :=
  match r with Fatal _ => true | _ => false end.

(** [in_range gs]: the i-th registered service has more than i method
    bindings, for every position i. *)
Definition in_range (gs : grpcServer) : Prop :=
  forall (i : nat) (srv : Service),
    serviceList gs !! i = Some srv ->
    (i < length (GrpcServiceDesc (Description_of srv)))%nat.

(** A service that [Register] accepts. *)
Definition registrable (srv : Service) : bool :=
  Valid (Description_of srv) &&
  negb (bool_decide (length (GrpcServiceDesc (Description_of srv)) = 0%nat)).

(** What [newGrpcServer opt] fixes in a host, and [Register] and [Run] keep. *)
Record built_by (opt : Option) (gs : grpcServer) : Prop := {
  built_host : host gs = "";
  built_port : port gs = Port opt;
  built_proxyPort : proxyPort gs = ProxyPort opt;
  built_register : register gs = ServerRegister opt;
  built_enableGateway : enableGateway gs = EnableGrpcGateway opt;
  built_gSrvGateway :
    gSrvGateway gs =
    if EnableGrpcGateway opt then Some {| Addr := ProxyPort opt |} else None
}.

(** ** Sample hosts *)

Definition gw_ok (n : string) : GatewayFn :=
  {| gw_name := n; gw_call := fun _ _ => None |}.

Definition gw_failing (n : string) (e : error) : GatewayFn :=
  {| gw_name := n; gw_call := fun _ _ => Some e |}.

Definition mk_service (n : string) (valid : bool) (ds : list string)
    (gws : list GatewayFn) : Service :=
  {| srv_name := n;
     srv_description :=
       {| Valid := valid;
          GrpcServiceDesc := (fun s => {| ServiceName := s |}) <$> ds;
          GrpcGateway := gws |} |}.

(** "Foo" and "Bar" of the spec's scenarios: valid, one method binding each. *)
Definition ex_foo : Service := mk_service "Foo" true ["foo.Foo"] [].

Definition ex_bar : Service := mk_service "Bar" true ["bar.Bar"] [].

(** A service with two method bindings. *)
Definition ex_pair : Service := mk_service "Pair" true ["pair.A"; "pair.B"] [].

(** A service with one gateway-binding function, which succeeds. *)
Definition ex_web : Service :=
  mk_service "Web" true ["web.Web"] [gw_ok "RegisterWebHandler"].

(** A service whose gateway-binding function returns an error. *)
Definition ex_broken : Service :=
  mk_service "Broken" true ["broken.Broken"]
    [gw_failing "RegisterBrokenHandler" "no route"].

Definition ex_invalid : Service := mk_service "Invalid" false ["invalid.X"] [].

Definition ex_empty : Service := mk_service "Empty" true [] [].

Definition reg_accept : Registrar := fun _ => None.

Definition reg_reject : Registrar := fun _ => Some "registry down".

Definition ex_option (reg : option Registrar) (gateway : bool) : Option :=
  {| Port := 50051; ProxyPort := 8080;
     StreamInterceptors := []; UnaryInterceptors := [];
     StatHandler := None; ServerRegister := reg;
     EnableGrpcGateway := gateway; TraceOption := "" |}.

(** A host built the way callers build one: [newGrpcServer], then
    [Register] for each service. *)
Definition ex_host (reg : option Registrar) (gateway : bool) (l : list Service)
    : grpcServer :=
  RegisterAll (newGrpcServer (ex_option reg gateway)) l.

(** Every collaborator succeeds; both units stop on cancellation. *)
Definition ex_world : World :=
  {| dial_err := None; listen_err := None; serve_err := None;
     http_result := ServerClosed; shutdown_err := None |}.


(** As [ex_world], but the gateway's port cannot be bound. *)
Definition ex_world_port_taken : World :=
  {| dial_err := None; listen_err := None; serve_err := None;
     http_result := BindFailed "address already in use"; shutdown_err := None |}.

(** A route that writes part of its answer and then panics. *)
Definition ex_partial_then_panic : Handler unit :=
  fun w r st => (st, Write "partial" w, Panicked (AnyString "boom")).

(** A route that panics at once on "/boom" and answers "ok" elsewhere. *)
Definition ex_route : Handler unit :=
  fun w r st =>
    if String.eqb (req_path r) "/boom"
    then (st, w, Panicked (AnyError "runtime error: nil map"))
    else (st, Write "ok" w, Returned).

(** ** Further observations *)

Definition is_go (e : Event) : bool :=
  match e with EvGo _ => true | _ => false end.

Definition is_listen (e : Event) : bool :=
  match e with EvListen _ _ => true | _ => false end.

Definition is_serve (e : Event) : bool :=
  match e with EvServe => true | _ => false end.

(** The call [f(context.Background(), mux, conn)] of the binding loop. *)
Definition gateway_call (mux : option ServeMux) (conn : ClientConn)
    (f : GatewayFn) : Event :=
  EvGatewayBind (gw_name f) mux conn.

(** A gateway-binding call was handed this route table and connection. *)
Definition bind_uses (mux : option ServeMux) (conn : ClientConn) (e : Event) : Prop :=
  match e with
  | EvGatewayBind _ mux' conn' => mux' = mux /\ conn' = conn
  | _ => True
  end.

(** The registrar, if there is one, accepts the Node of every registered
    service for this port and protocol. *)
Definition all_accepted (gs : grpcServer) (p : Z) (t : NodeType) : Prop :=
  forall reg, register gs = Some reg ->
    forall srv, srv ∈ serviceList gs -> reg (NewNode (host gs) p t srv) = None.

(** A Node as one of the two units builds it for a registered service. *)
Definition node_of_host (gs : grpcServer) (n : Node) : Prop :=
  node_host n = host gs /\
  node_service n ∈ serviceList gs /\
  ((node_type n = GRPC /\ node_port n = port gs) \/
   (node_type n = HTTP /\ node_port n = proxyPort gs /\ enableGateway gs = true)).

(** The watchers fire only on cancellation, and a unit finishes only
    after its watcher has made its stop call. *)
Definition stop_order (gs : grpcServer) (s : Sys) : Prop :=
  (sys_binary s = Finished -> sys_binaryWatcher s = Fired) /\
  (sys_binaryWatcher s = Fired ->
     sys_cancelled s = true /\ EvGracefulStop ∈ sys_calls s) /\
  (sys_binaryWatcher s <> Stopping) /\
  (sys_gateway s = Finished -> is_Some (gSrvGateway gs) ->
     sys_gatewayWatcher s = Stopping \/ sys_gatewayWatcher s = Fired) /\
  (sys_gatewayWatcher s = Stopping \/ sys_gatewayWatcher s = Fired ->
     sys_cancelled s = true /\ EvShutdown ∈ sys_calls s).

(** A call of the binding phase: the dial, a service binding or a
    gateway-binding call. *)
Definition is_setup_call (e : Event) : bool :=
  match e with
  | EvDial _ | EvRegisterService _ _ | EvGatewayBind _ _ _ => true
  | _ => false
  end.

(** The states of [ListenAndServe] that [runGateway] turns into nil. *)
Definition closed_http (r : HttpResult) : bool :=
  match r with
  | ClosedBeforeListen | ServerClosed => true
  | BindFailed _ | ServeFailed _ => false
  end.

(** [log.Fatal] and a return of [Run] exclude each other. *)
Definition never_both (gs : grpcServer) (s : Sys) : Prop :=
  wg_counts gs s /\ (sys_exited s = true -> sys_pc s <> AtReturn).

(** [Run] has returned, no [log.Fatal] was called, and no serving
    goroutine is left that could call it. *)
Definition returned_for_good (s : Sys) : Prop :=
  sys_pc s = AtReturn /\ sys_exited s = false /\
  sys_binary s = Finished /\
  (sys_gateway s = Finished \/ sys_gateway s = Idle).
(** ** Lemmas on the two-part results *)

Lemma fst_bind {A B} (m : M A) (k : A -> M B) :
  fst (bind m k) =
  fst m ++ match snd m with Ok a => fst (k a) | _ => [] end.
Proof.
  unfold bind. destruct m as [t [a|e|msg]]; simpl; try (by rewrite app_nil_r).
  by destruct (k a).
Qed.

Lemma snd_bind {A B} (m : M A) (k : A -> M B) :
  snd (bind m k) =
  match snd m with Ok a => snd (k a) | Fatal e => Fatal e | Panic msg => Panic msg end.
Proof.
  unfold bind. destruct m as [t [a|e|msg]]; simpl; try done.
  by destruct (k a).
Qed.

Lemma gatewayLoop_cons mux conn f fs :
  gatewayLoop mux conn (f :: fs) =
  bind (emit (EvGatewayBind (gw_name f) mux conn))
    (fun _ => match gw_call f mux conn with
              | Some e => fatal e
              | None => gatewayLoop mux conn fs
              end).
Proof. reflexivity. Qed.

Lemma bindLoop_cons mux conn i srv rest g :
  bindLoop mux conn i (srv :: rest) g =
  match GrpcServiceDesc (Description_of srv) !! i with
  | None => panic "index out of range"
  | Some d =>
      bind (emit (EvRegisterService d srv)) (fun _ =>
      bind (gatewayLoop mux conn (GrpcGateway (Description_of srv))) (fun _ =>
      bindLoop mux conn (S i) rest (RegisterService g d srv)))
  end.
Proof. reflexivity. Qed.

Lemma gatewayLoop_cons_snd mux conn f fs :
  snd (gatewayLoop mux conn (f :: fs)) =
  match gw_call f mux conn with
  | Some e => Fatal e
  | None => snd (gatewayLoop mux conn fs)
  end.
Proof.
  rewrite gatewayLoop_cons, snd_bind. simpl. by destruct (gw_call f mux conn).
Qed.

Lemma gatewayLoop_cons_fst mux conn f fs :
  fst (gatewayLoop mux conn (f :: fs)) =
  EvGatewayBind (gw_name f) mux conn ::
  match gw_call f mux conn with
  | Some e => []
  | None => fst (gatewayLoop mux conn fs)
  end.
Proof.
  rewrite gatewayLoop_cons, fst_bind. simpl. by destruct (gw_call f mux conn).
Qed.

Lemma gatewayLoop_no_panic mux conn fs :
  is_panic (snd (gatewayLoop mux conn fs)) = false.
Proof.
  induction fs as [|f fs IH]; [done|].
  rewrite gatewayLoop_cons_snd.
  destruct (gw_call f mux conn); [done|apply IH].
Qed.

Lemma gatewayLoop_result mux conn fs :
  snd (gatewayLoop mux conn fs) = Ok tt \/
  exists e, snd (gatewayLoop mux conn fs) = Fatal e.
Proof.
  induction fs as [|f fs IH]; [by left|].
  rewrite gatewayLoop_cons_snd.
  destruct (gw_call f mux conn); [right; eauto|apply IH].
Qed.

(** The result of the binding loop, one iteration unfolded. *)
Lemma bindLoop_cons_snd mux conn i srv rest g :
  snd (bindLoop mux conn i (srv :: rest) g) =
  match GrpcServiceDesc (Description_of srv) !! i with
  | None => Panic "index out of range"
  | Some d =>
      match snd (gatewayLoop mux conn (GrpcGateway (Description_of srv))) with
      | Ok _ => snd (bindLoop mux conn (S i) rest (RegisterService g d srv))
      | Fatal e => Fatal e
      | Panic msg => Panic msg
      end
  end.
Proof.
  rewrite bindLoop_cons.
  destruct (GrpcServiceDesc (Description_of srv) !! i); [|done].
  rewrite snd_bind. cbn [emit fst snd]. by rewrite snd_bind.
Qed.

Lemma bindLoop_cons_fst mux conn i srv rest g :
  fst (bindLoop mux conn i (srv :: rest) g) =
  match GrpcServiceDesc (Description_of srv) !! i with
  | None => []
  | Some d =>
      EvRegisterService d srv ::
      fst (gatewayLoop mux conn (GrpcGateway (Description_of srv))) ++
      match snd (gatewayLoop mux conn (GrpcGateway (Description_of srv))) with
      | Ok _ => fst (bindLoop mux conn (S i) rest (RegisterService g d srv))
      | _ => []
      end
  end.
Proof.
  rewrite bindLoop_cons.
  destruct (GrpcServiceDesc (Description_of srv) !! i); [|done].
  rewrite fst_bind. cbn [emit fst snd app]. by rewrite fst_bind.
Qed.

(** In range at every position: the loop does not panic. *)
Lemma bindLoop_in_range_no_panic mux conn l : forall i g,
  (forall k srv, l !! k = Some srv ->
     (i + k < length (GrpcServiceDesc (Description_of srv)))%nat) ->
  is_panic (snd (bindLoop mux conn i l g)) = false.
Proof.
  induction l as [|srv rest IH]; intros i g Hr; [done|].
  rewrite bindLoop_cons_snd.
  pose proof (Hr 0%nat srv eq_refl) as H0. rewrite Nat.add_0_r in H0.
  destruct (lookup_lt_is_Some_2 _ _ H0) as [d Hd]. rewrite Hd.
  destruct (gatewayLoop_result mux conn (GrpcGateway (Description_of srv)))
    as [->|[e ->]]; [|done].
  apply IH. intros k s Hk.
  specialize (Hr (S k) s Hk). lia.
Qed.

(** The loop ran through: every position was in range. *)
Lemma bindLoop_Ok_in_range mux conn l : forall i g g',
  snd (bindLoop mux conn i l g) = Ok g' ->
  forall k srv, l !! k = Some srv ->
    (i + k < length (GrpcServiceDesc (Description_of srv)))%nat.
Proof.
  induction l as [|srv rest IH]; intros i g g' Hok k s Hk; [done|].
  rewrite bindLoop_cons_snd in Hok.
  destruct (GrpcServiceDesc (Description_of srv) !! i) as [d|] eqn:Hd; [|done].
  destruct (snd (gatewayLoop mux conn (GrpcGateway (Description_of srv))));
    try done.
  destruct k as [|k]; simpl in Hk.
  - inversion Hk; subst. rewrite Nat.add_0_r. by eapply lookup_lt_Some.
  - specialize (IH _ _ _ Hok k s Hk). lia.
Qed.

(** What the loop binds when it runs through: one pair per service, the
    service at position [i + k] with the binding at index [i + k] of its own
    sequence. *)
Lemma bindLoop_Ok_bound mux conn l : forall i g g',
  snd (bindLoop mux conn i l g) = Ok g' ->
  exists ds,
    srv_bound g' = srv_bound g ++ zip ds l /\
    length ds = length l /\
    forall k d srv, ds !! k = Some d -> l !! k = Some srv ->
      GrpcServiceDesc (Description_of srv) !! (i + k)%nat = Some d.
Proof.
  induction l as [|srv rest IH]; intros i g g' Hok.
  - simpl in Hok. inversion Hok; subst. exists []. rewrite app_nil_r. done.
  - rewrite bindLoop_cons_snd in Hok.
    destruct (GrpcServiceDesc (Description_of srv) !! i) as [d|] eqn:Hd; [|done].
    destruct (snd (gatewayLoop mux conn (GrpcGateway (Description_of srv))));
      try done.
    destruct (IH _ _ _ Hok) as (ds & Hb & Hl & Hk).
    exists (d :: ds). split; [|split].
    + rewrite Hb. simpl. by rewrite <- app_assoc.
    + simpl. by rewrite Hl.
    + intros [|k] d' s Hd' Hs; simpl in *.
      * inversion Hd'; inversion Hs; subst. by rewrite Nat.add_0_r.
      * replace (i + S k)%nat with (S i + k)%nat by lia. eauto.
Qed.

Lemma dial_fst gs w : fst (dial gs w) = [EvDial (loopback gs)].
Proof.
  unfold dial, mbind, M_bind. rewrite fst_bind. simpl.
  by destruct (dial_err w).
Qed.

Lemma dial_snd gs w :
  snd (dial gs w) =
  match dial_err w with Some e => Fatal e | None => Ok (loopback gs) end.
Proof.
  unfold dial, mbind, M_bind. rewrite snd_bind. simpl.
  by destruct (dial_err w).
Qed.

Lemma RunSetup_snd gs w :
  snd (RunSetup gs w) =
  match dial_err w with
  | Some e => Fatal e
  | None =>
      match snd (bindLoop (gatewayMux gs) (loopback gs) 0
                   (serviceList gs) (gSrv gs)) with
      | Ok g => Ok (set_gSrv g gs)
      | Fatal e => Fatal e
      | Panic msg => Panic msg
      end
  end.
Proof.
  unfold RunSetup, mbind, M_bind. rewrite snd_bind, dial_snd.
  destruct (dial_err w); [done|].
  rewrite snd_bind. by destruct (snd (bindLoop _ _ _ _ _)).
Qed.

Lemma RunSetup_fst gs w :
  fst (RunSetup gs w) =
  EvDial (loopback gs) ::
  match dial_err w with
  | Some e => []
  | None =>
      fst (bindLoop (gatewayMux gs) (loopback gs) 0
             (serviceList gs) (gSrv gs))
  end.
Proof.
  unfold RunSetup, mbind, M_bind. rewrite fst_bind, dial_fst, dial_snd.
  destruct (dial_err w); [done|].
  rewrite fst_bind. destruct (snd (bindLoop _ _ _ _ _)); simpl;
    by rewrite ?app_nil_r.
Qed.

(** [Run] does not touch the registered-service list, nor any field but
    the gRPC server. *)
Lemma RunSetup_Ok_host gs w gs' :
  snd (RunSetup gs w) = Ok gs' -> exists g, gs' = set_gSrv g gs.
Proof.
  rewrite RunSetup_snd. destruct (dial_err w); [done|].
  destruct (snd (bindLoop _ _ _ _ _)) as [g| |]; [|done..].
  intros [= <-]. by exists g.
Qed.

Lemma Run_Returns_setup gs w gs' :
  rr_outcome (Run gs w) = Returns gs' -> snd (RunSetup gs w) = Ok gs'.
Proof.
  unfold Run. destruct (RunSetup gs w) as [tr [g|e|msg]]; simpl; try done.
  destruct (_ ++ _); [|done]. by intros [= ->].
Qed.

(** ** Register *)

Lemma Register_invalid gs srv :
  Valid (Description_of srv) = false ->
  Register gs srv = (Some "invalid service description", gs).
Proof. intros H. unfold Register. by rewrite H. Qed.

Lemma Register_no_bindings gs srv :
  Valid (Description_of srv) = true ->
  GrpcServiceDesc (Description_of srv) = [] ->
  Register gs srv = (Some "not invalid grpc service desc", gs).
Proof. intros Hv He. unfold Register. by rewrite Hv, He. Qed.

Lemma Register_valid gs srv :
  Valid (Description_of srv) = true ->
  GrpcServiceDesc (Description_of srv) <> [] ->
  Register gs srv = (None, set_serviceList (serviceList gs ++ [srv]) gs).
Proof.
  intros Hv Hne. unfold Register. rewrite Hv. simpl.
  rewrite bool_decide_eq_false_2; [done|].
  by destruct (GrpcServiceDesc (Description_of srv)).
Qed.

(** C5: [Register] returns a ConfigurationError and leaves the host, and
    with it the registered-service list, unchanged for every descriptor with
    [Valid = false] and for every descriptor with [Valid = true] and an empty
    [GrpcServiceDesc]; for every descriptor with [Valid = true] and a
    non-empty [GrpcServiceDesc] it returns nil and appends exactly that
    service to the list. *)
Theorem Register_validates (gs : grpcServer) (srv : Service) :
  (Valid (Description_of srv) = false ->
     ConfigurationError (fst (Register gs srv)) /\
     snd (Register gs srv) = gs) /\
  (Valid (Description_of srv) = true ->
   GrpcServiceDesc (Description_of srv) = [] ->
     ConfigurationError (fst (Register gs srv)) /\
     snd (Register gs srv) = gs) /\
  (Valid (Description_of srv) = true ->
   GrpcServiceDesc (Description_of srv) <> [] ->
     fst (Register gs srv) = None /\
     serviceList (snd (Register gs srv)) = serviceList gs ++ [srv]).
Proof.
  split; [|split].
  - intros H. rewrite (Register_invalid _ _ H). by split; [eexists|].
  - intros Hv He. rewrite (Register_no_bindings _ _ Hv He). by split; [eexists|].
  - intros Hv Hne. by rewrite (Register_valid _ _ Hv Hne).
Qed.

Lemma Register_validates_witness :
  (ConfigurationError (fst (Register (ex_host None false [ex_foo]) ex_invalid)) /\
   snd (Register (ex_host None false [ex_foo]) ex_invalid) = ex_host None false [ex_foo]) /\
  (ConfigurationError (fst (Register (ex_host None false [ex_foo]) ex_empty)) /\
   snd (Register (ex_host None false [ex_foo]) ex_empty) = ex_host None false [ex_foo]) /\
  (fst (Register (ex_host None false [ex_foo]) ex_bar) = None /\
   serviceList (snd (Register (ex_host None false [ex_foo]) ex_bar)) = [ex_foo; ex_bar]).
Proof.
  split; [|split].
  - apply (proj1 (Register_validates (ex_host None false [ex_foo]) ex_invalid)).
    reflexivity.
  - apply (proj1 (proj2 (Register_validates (ex_host None false [ex_foo]) ex_empty)));
      reflexivity.
  - apply (proj2 (proj2 (Register_validates (ex_host None false [ex_foo]) ex_bar)));
      [reflexivity | discriminate].
Defined.

(** [Register] reads nothing of the host but appends to its list: the gRPC
    server field does not matter to it. *)
Lemma Register_set_gSrv g gs srv :
  Register (set_gSrv g gs) srv =
  (fst (Register gs srv), set_gSrv g (snd (Register gs srv))).
Proof.
  unfold Register. destruct (negb _); [done|].
  by destruct (bool_decide _).
Qed.

(** The claim of C2 fails: on a host whose [Run] has been invoked, and has
    even returned, [Register] of a valid service returns nil and appends
    it. *)
Lemma Register_after_Run_appends :
  exists gs',
    rr_outcome (Run (ex_host (Some reg_accept) false [ex_foo]) ex_world) = Returns gs' /\
    ~ (ConfigurationError (fst (Register gs' ex_bar)) /\
       serviceList (snd (Register gs' ex_bar)) = serviceList gs') /\
    fst (Register gs' ex_bar) = None /\
    serviceList (snd (Register gs' ex_bar)) = [ex_foo; ex_bar].
Proof.
  eexists. split; [reflexivity|]. split; [|split; reflexivity].
  intros [[e He] _]. discriminate He.
Qed.

(** C2, amended: [Register] has no phase check.  On a host [gs'] whose
    [Run] has been invoked and has got past its binding loop (it is serving,
    or has returned), [Register] answers as it does before [Run]: the same
    error or nil, the same list afterwards; [Run] itself leaves the list as
    it was; so a valid service with a non-empty [GrpcServiceDesc] is
    accepted and appended after [Run] too. *)
Theorem Register_ignores_Run (gs : grpcServer) (w : World) (gs' : grpcServer)
    (srv : Service) :
  snd (RunSetup gs w) = Ok gs' ->
  serviceList gs' = serviceList gs /\
  fst (Register gs' srv) = fst (Register gs srv) /\
  serviceList (snd (Register gs' srv)) = serviceList (snd (Register gs srv)) /\
  (Valid (Description_of srv) = true ->
   GrpcServiceDesc (Description_of srv) <> [] ->
     fst (Register gs' srv) = None /\
     serviceList (snd (Register gs' srv)) = serviceList gs ++ [srv]).
Proof.
  intros H. destruct (RunSetup_Ok_host _ _ _ H) as [g ->].
  rewrite Register_set_gSrv. simpl.
  split; [done|]. split; [done|]. split; [done|].
  intros Hv Hne. by rewrite (Register_valid _ _ Hv Hne).
Qed.

Lemma Register_ignores_Run_witness :
  exists gs',
    snd (RunSetup (ex_host (Some reg_accept) false [ex_foo]) ex_world) = Ok gs' /\
    serviceList gs' = [ex_foo] /\
    fst (Register gs' ex_bar) = None /\
    serviceList (snd (Register gs' ex_bar)) = [ex_foo; ex_bar].
Proof.
  eexists. split; [reflexivity|].
  destruct (Register_ignores_Run (ex_host (Some reg_accept) false [ex_foo])
              ex_world _ ex_bar eq_refl) as (Hl & _ & _ & Hv).
  split; [exact Hl|].
  apply Hv; [reflexivity | discriminate].
Defined.

(** ** The binding loop of Run *)

(** When the loop runs through, the gRPC server holds one binding per
    registered service: the service at position [k] with the element at
    index [k] of its own [GrpcServiceDesc]. *)
Lemma RunSetup_binds_one_per_service gs w gs' :
  snd (RunSetup gs w) = Ok gs' ->
  exists ds,
    srv_bound (gSrv gs') = srv_bound (gSrv gs) ++ zip ds (serviceList gs) /\
    length ds = length (serviceList gs) /\
    forall k d srv, ds !! k = Some d -> serviceList gs !! k = Some srv ->
      GrpcServiceDesc (Description_of srv) !! k = Some d.
Proof.
  rewrite RunSetup_snd. destruct (dial_err w); [done|].
  destruct (snd (bindLoop _ _ _ _ _)) as [g| |] eqn:Hb; [|done..].
  intros [= <-]. simpl.
  destruct (bindLoop_Ok_bound _ _ _ _ _ _ Hb) as (ds & H1 & H2 & H3).
  exists ds. eauto.
Qed.

(** C1, the code at a service with two method bindings: [Run] binds the
    first one only, and goes on to serve (it even returns); "pair.B", the
    second element of the service's [GrpcServiceDesc], never reaches the
    gRPC server.  The claim says every element is bound. *)
Theorem Run_binds_one_binding_only :
  exists gs',
    rr_outcome (Run (ex_host (Some reg_accept) false [ex_pair]) ex_world) = Returns gs' /\
    GrpcServiceDesc (Description_of ex_pair) =
      [{| ServiceName := "pair.A" |}; {| ServiceName := "pair.B" |}] /\
    bound_of (all_calls (Run (ex_host (Some reg_accept) false [ex_pair]) ex_world)) =
      [({| ServiceName := "pair.A" |}, ex_pair)] /\
    srv_bound (gSrv gs') = [({| ServiceName := "pair.A" |}, ex_pair)].
Proof. eexists. repeat split; reflexivity. Qed.

(** The spec's scenario of "Foo" and "Bar", one method binding each:
    the loop panics at position 1, before anything is served or submitted. *)
Lemma Run_Foo_Bar_panics :
  rr_outcome (Run (ex_host (Some reg_accept) false [ex_foo; ex_bar]) ex_world) =
    Panics "index out of range" /\
  nodes_of (all_calls (Run (ex_host (Some reg_accept) false [ex_foo; ex_bar]) ex_world)) = [].
Proof. split; reflexivity. Qed.

(** The first call of [Run] is the loopback dial, whatever the host's
    [enableGateway] says. *)
Lemma Run_dials_first gs w :
  head (rr_setup (Run gs w)) = Some (EvDial (loopback gs)).
Proof.
  unfold Run. pose proof (RunSetup_fst gs w) as H.
  destruct (RunSetup gs w) as [tr [g|e|msg]]; simpl in *; by rewrite H.
Qed.

(** What [Run] does up to its WaitGroup does not depend on
    [enableGateway]: the flag is not read there. *)
Lemma RunSetup_ignores_enableGateway b gs w :
  fst (RunSetup (set_enableGateway b gs) w) = fst (RunSetup gs w).
Proof. by rewrite !RunSetup_fst. Qed.

(** C3, the code at a host with the gateway disabled and one service that
    has a gateway-binding function: [Run] dials the loopback connection and
    calls the function, handing it the nil route table.  The claim says
    neither happens unless the gateway is enabled. *)
Theorem Run_dials_and_binds_gateway_when_disabled :
  enableGateway (ex_host None false [ex_web]) = false /\
  gatewayMux (ex_host None false [ex_web]) = None /\
  rr_setup (Run (ex_host None false [ex_web]) ex_world) =
    [EvDial {| cc_host := "127.0.0.1"; cc_port := 50051 |};
     EvRegisterService {| ServiceName := "web.Web" |} ex_web;
     EvGatewayBind "RegisterWebHandler" None
       {| cc_host := "127.0.0.1"; cc_port := 50051 |};
     EvGo BinaryUnit] /\
  filter is_dial (all_calls (Run (ex_host None false [ex_web]) ex_world)) <> [] /\
  filter is_gateway_bind (all_calls (Run (ex_host None false [ex_web]) ex_world)) <> [].
Proof. repeat split; try reflexivity; discriminate. Qed.

(** The claim of C10 fails as an "only if": [Run] of this host does not
    panic, its first service's gateway-binding function fails and
    [log.Fatal] ends the process in iteration 0, yet the service at
    position 1 has one method binding only. *)
Lemma Run_no_panic_out_of_range :
  ~ (is_panic (snd (RunSetup (ex_host None false [ex_broken; ex_bar]) ex_world)) = false ->
     in_range (ex_host None false [ex_broken; ex_bar])).
Proof.
  intros H. specialize (H eq_refl 1%nat ex_bar eq_refl). simpl in H. lia.
Qed.

(** C10, amended: the binding loop reads [desc.GrpcServiceDesc[i]] with
    [i] the service's position in the list.  If every service at position
    [i] has more than [i] method bindings the loop does not panic; a [Run]
    that is not ended by [log.Fatal] before or inside the loop (a failed
    dial, a failing gateway-binding function) is free of the panic only if
    that holds; and for a service at position [i] with at most [i] method
    bindings the access is out of bounds. *)
Theorem binding_loop_index_in_range (gs : grpcServer) (w : World) :
  (in_range gs -> is_panic (snd (RunSetup gs w)) = false) /\
  (is_fatal (snd (RunSetup gs w)) = false ->
   is_panic (snd (RunSetup gs w)) = false -> in_range gs) /\
  (forall (i : nat) (srv : Service),
     serviceList gs !! i = Some srv ->
     (length (GrpcServiceDesc (Description_of srv)) <= i)%nat ->
     GrpcServiceDesc (Description_of srv) !! i = None).
Proof.
  split; [|split].
  - intros Hr. rewrite RunSetup_snd. destruct (dial_err w); [done|].
    pose proof (bindLoop_in_range_no_panic (gatewayMux gs) (loopback gs)
                  (serviceList gs) 0 (gSrv gs)) as Hp.
    destruct (snd (bindLoop _ _ _ _ _)); try done.
    apply Hp. intros k srv Hk. by apply Hr.
  - rewrite RunSetup_snd. destruct (dial_err w); [done|].
    destruct (snd (bindLoop _ _ _ _ _)) as [g| |] eqn:Hb; try done.
    intros _ _ i srv Hi.
    exact (bindLoop_Ok_in_range _ _ _ _ _ _ Hb i srv Hi).
  - intros i srv _ Hle. by apply lookup_ge_None_2.
Qed.

Lemma binding_loop_index_in_range_witness :
  is_panic (snd (RunSetup (ex_host None false [ex_foo]) ex_world)) = false /\
  in_range (ex_host None false [ex_foo]) /\
  GrpcServiceDesc (Description_of ex_bar) !! 1%nat = None.
Proof.
  split; [|split].
  - apply (proj1 (binding_loop_index_in_range (ex_host None false [ex_foo]) ex_world)).
    intros [|i] srv H; simpl in H; [|done].
    injection H as <-. simpl. lia.
  - apply (proj1 (proj2 (binding_loop_index_in_range
                          (ex_host None false [ex_foo]) ex_world)));
      reflexivity.
  - apply (proj2 (proj2 (binding_loop_index_in_range
                          (ex_host None false [ex_foo; ex_bar]) ex_world))
             1%nat ex_bar); [reflexivity | simpl; lia].
Defined.

Lemma nodes_of_app t1 t2 : nodes_of (t1 ++ t2) = nodes_of t1 ++ nodes_of t2.
Proof. apply omap_app. Qed.

Lemma nodes_of_gatewayLoop mux conn fs :
  nodes_of (fst (gatewayLoop mux conn fs)) = [].
Proof.
  induction fs as [|f fs IH]; [done|].
  rewrite gatewayLoop_cons_fst. simpl. by destruct (gw_call f mux conn).
Qed.

Lemma nodes_of_bindLoop mux conn l : forall i g,
  nodes_of (fst (bindLoop mux conn i l g)) = [].
Proof.
  induction l as [|srv rest IH]; intros i g; [done|].
  rewrite bindLoop_cons_fst.
  destruct (GrpcServiceDesc (Description_of srv) !! i); [|done].
  change (nodes_of (?e :: ?t)) with (nodes_of ([e] ++ t)).
  rewrite !nodes_of_app, nodes_of_gatewayLoop. simpl.
  destruct (snd (gatewayLoop _ _ _)); [apply IH|done..].
Qed.

Lemma nodes_of_RunSetup gs w : nodes_of (fst (RunSetup gs w)) = [].
Proof.
  rewrite RunSetup_fst. simpl. destruct (dial_err w); [done|].
  apply nodes_of_bindLoop.
Qed.

(** The loop submits Nodes only, each built from the host, port and
    protocol it was given. *)
Lemma discoveryLoop_nodes reg h p t l :
  Forall (fun n => node_host n = h /\ node_port n = p /\ node_type n = t)
         (nodes_of (fst (discoveryLoop reg h p t l))).
Proof.
  induction l as [|srv rest IH]; simpl; [constructor|].
  destruct (reg (NewNode h p t srv)).
  - simpl. by repeat constructor.
  - destruct (discoveryLoop reg h p t rest) as [tr r]. simpl in *.
    by repeat constructor.
Qed.

Lemma discoveryLoop_events reg h p t l :
  Forall (fun e => is_discovery e = true) (fst (discoveryLoop reg h p t l)).
Proof.
  induction l as [|srv rest IH]; simpl; [constructor|].
  destruct (reg (NewNode h p t srv)).
  - simpl. by repeat constructor.
  - destruct (discoveryLoop reg h p t rest) as [tr r]. simpl in *.
    by constructor.
Qed.

(** No registration failed: one Node per service, in list order. *)
Lemma discoveryLoop_None reg h p t l :
  snd (discoveryLoop reg h p t l) = None ->
  nodes_of (fst (discoveryLoop reg h p t l)) = NewNode h p t <$> l.
Proof.
  induction l as [|srv rest IH]; simpl; [done|].
  destruct (reg (NewNode h p t srv)); [done|].
  destruct (discoveryLoop reg h p t rest) as [tr r]. simpl in *.
  intros Hr. by rewrite (IH Hr).
Qed.

Lemma discoveryLoop_accepting reg h p t l :
  (forall n, reg n = None) -> snd (discoveryLoop reg h p t l) = None.
Proof.
  intros Ha. induction l as [|srv rest IH]; simpl; [done|].
  rewrite Ha. by destruct (discoveryLoop reg h p t rest).
Qed.

Lemma discovery_nodes gs p t :
  Forall (fun n => node_host n = host gs /\ node_port n = p /\ node_type n = t)
         (nodes_of (fst (discovery gs p t))).
Proof.
  unfold discovery. destruct (register gs); [|constructor].
  apply discoveryLoop_nodes.
Qed.

Lemma discovery_events gs p t :
  Forall (fun e => is_discovery e = true) (fst (discovery gs p t)).
Proof.
  unfold discovery. destruct (register gs); [|constructor].
  apply discoveryLoop_events.
Qed.

Lemma discovery_None gs p t :
  is_Some (register gs) ->
  snd (discovery gs p t) = None ->
  nodes_of (fst (discovery gs p t)) = NewNode (host gs) p t <$> serviceList gs.
Proof.
  unfold discovery. intros [reg ->]. apply discoveryLoop_None.
Qed.

(** The Nodes submitted by the binary-serve unit. *)
Lemma run_nodes gs w :
  nodes_of (fst (run gs w)) =
  match listen_err w with
  | Some _ => []
  | None => nodes_of (fst (discovery gs (port gs) GRPC))
  end.
Proof.
  unfold run, run_startup. destruct (listen_err w); [done|].
  destruct (discovery gs (port gs) GRPC) as [tr [e|]]; simpl; [done|].
  change (EvListen ?p ?b :: EvGo ?g :: ?t) with ([EvListen p b; EvGo g] ++ t).
  rewrite !nodes_of_app. simpl. by rewrite !app_nil_r.
Qed.

(** The Nodes submitted by the gateway-serve unit. *)
Lemma runGateway_nodes gs w :
  nodes_of (fst (runGateway gs w)) =
  match gSrvGateway gs with
  | None => []
  | Some _ => nodes_of (fst (discovery gs (proxyPort gs) HTTP))
  end.
Proof.
  unfold runGateway, runGateway_startup, listenAndServe.
  destruct (gSrvGateway gs) as [hs|]; [|done].
  destruct (discovery gs (proxyPort gs) HTTP) as [tr [e|]]; simpl; [done|].
  destruct (http_result w); simpl;
    rewrite ?nodes_of_app; simpl; by rewrite ?app_nil_r.
Qed.

(** In the binary-serve unit a Node is submitted only after [net.Listen]
    has bound the socket: the unit's first call is the successful listen. *)
Lemma run_discovery_after_listen gs w n :
  EvDiscovery n ∈ fst (run gs w) ->
  exists tr, fst (run gs w) = EvListen (port gs) true :: tr /\
             EvDiscovery n ∈ tr.
Proof.
  unfold run, run_startup. destruct (listen_err w).
  - simpl. intros H. apply list_elem_of_singleton in H. discriminate.
  - destruct (discovery gs (port gs) GRPC) as [tr [e|]]; simpl;
      intros H; eexists; (split; [reflexivity|]);
      by apply elem_of_cons in H as [H|H].
Qed.

(** In the gateway-serve unit every Node is submitted before
    [ListenAndServe] is called, and so before the HTTP socket is bound. *)
Lemma runGateway_discovery_before_listen gs w :
  exists pre post,
    fst (runGateway gs w) = pre ++ post /\
    Forall (fun e => is_http_listen e = false) pre /\
    Forall (fun e => is_discovery e = false) post.
Proof.
  unfold runGateway, runGateway_startup, listenAndServe.
  destruct (gSrvGateway gs) as [hs|].
  - pose proof (discovery_events gs (proxyPort gs) HTTP) as Hd.
    assert (Hpre : Forall (fun e => is_http_listen e = false)
                     (fst (discovery gs (proxyPort gs) HTTP))).
    { eapply Forall_impl; [exact Hd|]. by intros []. }
    destruct (discovery gs (proxyPort gs) HTTP) as [tr [e|]]; simpl in *.
    + exists (EvGo GatewayWatcher :: tr), []. rewrite app_nil_r.
      by repeat constructor.
    + exists (EvGo GatewayWatcher :: tr ++ [EvLog (GatewayStart (proxyPort gs))]).
      assert (Hp : Forall (fun e => is_http_listen e = false)
                     (EvGo GatewayWatcher ::
                      tr ++ [EvLog (GatewayStart (proxyPort gs))])).
      { constructor; [done|]. apply Forall_app. by repeat constructor. }
      destruct (http_result w); simpl.
      * exists []. rewrite !app_nil_r.
        split; [reflexivity | split; [exact Hp | constructor]].
      * exists [EvHttpListen (Addr hs) false].
        split; [reflexivity | split; [exact Hp | by repeat constructor]].
      * exists [EvHttpListen (Addr hs) true; EvHttpServe].
        split; [reflexivity | split; [exact Hp | by repeat constructor]].
      * exists [EvHttpListen (Addr hs) true; EvHttpServe].
        split; [reflexivity | split; [exact Hp | by repeat constructor]].
  - exists [], []. by repeat constructor.
Qed.

(** C4, the code at a host with the gateway enabled, a registrar and one
    service, in a world where the HTTP port cannot be bound: the
    gateway-serve unit submits the service's HTTP Node, and only then calls
    [ListenAndServe], whose bind fails.  The claim says the Node is
    submitted strictly after the listener has bound its socket, as the
    binary-serve unit does it. *)
Theorem runGateway_registers_before_bind :
  fst (runGateway (ex_host (Some reg_accept) true [ex_foo]) ex_world_port_taken) =
    [EvGo GatewayWatcher;
     EvDiscovery (NewNode "" 8080 HTTP ex_foo);
     EvLog (GatewayStart 8080);
     EvHttpListen 8080 false] /\
  fst (runGateway (ex_host (Some reg_accept) true [ex_foo]) ex_world) =
    [EvGo GatewayWatcher;
     EvDiscovery (NewNode "" 8080 HTTP ex_foo);
     EvLog (GatewayStart 8080);
     EvHttpListen 8080 true;
     EvHttpServe] /\
  fst (run (ex_host (Some reg_accept) true [ex_foo]) ex_world) =
    [EvListen 50051 true;
     EvGo BinaryWatcher;
     EvDiscovery (NewNode "" 50051 GRPC ex_foo);
     EvLog (RpcStart 50051);
     EvServe].
Proof. repeat split; reflexivity. Qed.

(** ** Hosts built by newGrpcServer and Register *)

Lemma Register_frame gs srv :
  exists l, snd (Register gs srv) = set_serviceList l gs.
Proof.
  unfold Register. destruct (negb _); [|destruct (bool_decide _)]; simpl;
    try (exists (serviceList gs); by destruct gs); eauto.
Qed.

Lemma RegisterAll_frame l : forall gs,
  exists l', RegisterAll gs l = set_serviceList l' gs.
Proof.
  unfold RegisterAll. induction l as [|srv rest IH]; intros gs; simpl.
  - exists (serviceList gs). by destruct gs.
  - destruct (Register_frame gs srv) as [l1 ->].
    destruct (IH (set_serviceList l1 gs)) as [l2 ->]. by exists l2.
Qed.

Lemma RegisterAll_serviceList l : forall gs,
  serviceList (RegisterAll gs l) =
  serviceList gs ++ filter (fun s => registrable s = true) l.
Proof.
  unfold RegisterAll. induction l as [|srv rest IH]; intros gs; simpl.
  - by rewrite app_nil_r.
  - rewrite IH, filter_cons. unfold Register.
    assert (Hr : registrable srv =
                 Valid (Description_of srv) &&
                 negb (bool_decide
                         (length (GrpcServiceDesc (Description_of srv)) = 0%nat)))
      by reflexivity.
    destruct (Valid (Description_of srv));
      destruct (bool_decide _); simpl in *;
      destruct (decide (registrable srv = true)) as [Hd|Hd];
      rewrite Hr in Hd; try done.
    by rewrite <- app_assoc.
Qed.

Lemma newGrpcServer_built opt : built_by opt (newGrpcServer opt).
Proof.
  unfold newGrpcServer, newGrpcServer_literal. simpl.
  destruct (EnableGrpcGateway opt) eqn:He; constructor; simpl; by rewrite ?He.
Qed.

Lemma built_by_set_serviceList opt gs l :
  built_by opt gs -> built_by opt (set_serviceList l gs).
Proof. intros []. by constructor. Qed.

Lemma built_by_set_gSrv opt gs g :
  built_by opt gs -> built_by opt (set_gSrv g gs).
Proof. intros []. by constructor. Qed.

Lemma RegisterAll_built opt l :
  built_by opt (RegisterAll (newGrpcServer opt) l).
Proof.
  destruct (RegisterAll_frame l (newGrpcServer opt)) as [l' ->].
  apply built_by_set_serviceList, newGrpcServer_built.
Qed.

(** The Nodes of a whole [Run]: those of the gateway-serve unit, then those
    of the binary-serve unit; the binding phase submits none. *)
Lemma Run_nodes gs w :
  nodes_of (all_calls (Run gs w)) =
  match snd (RunSetup gs w) with
  | Ok gs' =>
      (if enableGateway gs' then nodes_of (fst (runGateway gs' w)) else []) ++
      nodes_of (fst (run gs' w))
  | _ => []
  end.
Proof.
  unfold all_calls, Run. pose proof (nodes_of_RunSetup gs w) as Hs.
  destruct (RunSetup gs w) as [tr [gs'|e|msg]]; simpl in *;
    rewrite ?nodes_of_app, ?Hs; simpl; try done.
  destruct (enableGateway gs'); simpl; [|done].
  by destruct (runGateway gs' w).
Qed.

(** C9: [findListenOn] returns the empty string whatever the host, and on
    a host built by [newGrpcServer] and any sequence of [Register] calls
    every Node that [Run] submits to the registrar, from either serving
    unit, has an empty host. *)
Theorem advertised_host_is_empty (gs0 : grpcServer) (opt : Option)
    (l : list Service) (w : World) :
  findListenOn gs0 = "" /\
  host (RegisterAll (newGrpcServer opt) l) = "" /\
  Forall (fun n => node_host n = "")
         (nodes_of (all_calls (Run (RegisterAll (newGrpcServer opt) l) w))).
Proof.
  pose proof (RegisterAll_built opt l) as Hb.
  split; [done|]. split; [apply Hb|].
  rewrite Run_nodes.
  destruct (snd (RunSetup _ w)) as [gs'| |] eqn:Hs; [|constructor..].
  destruct (RunSetup_Ok_host _ _ _ Hs) as [g ->].
  assert (Hh : host (set_gSrv g (RegisterAll (newGrpcServer opt) l)) = "")
    by apply Hb.
  apply Forall_app. split.
  - destruct (enableGateway _); [|constructor].
    rewrite runGateway_nodes. destruct (gSrvGateway _); [|constructor].
    eapply Forall_impl; [apply discovery_nodes|].
    intros n (Hn & _). by rewrite Hn.
  - rewrite run_nodes. destruct (listen_err w); [constructor|].
    eapply Forall_impl; [apply discovery_nodes|].
    intros n (Hn & _). by rewrite Hn.
Qed.

Lemma filter_type_same h p t (l : list Service) :
  filter (fun n => node_type n = t) (NewNode h p t <$> l) = NewNode h p t <$> l.
Proof.
  induction l as [|s l IH]; [done|]. rewrite fmap_cons.
  rewrite filter_cons_True by done. by rewrite IH.
Qed.

Lemma filter_type_other h p t t' (l : list Service) :
  t <> t' ->
  filter (fun n => node_type n = t') (NewNode h p t <$> l) = [].
Proof.
  intros Hne. induction l as [|s l IH]; [done|]. rewrite fmap_cons.
  by rewrite filter_cons_False by done.
Qed.

(** The claim of C6 fails: a registrar is configured and two services are
    registered, the registrar turns the first Node down, and the
    binary-serve unit returns that error at once: one RPC Node has been
    submitted, not two. *)
Lemma Run_rejected_node_stops_registration :
  is_Some (register (ex_host (Some reg_reject) false [ex_foo; ex_pair])) /\
  serviceList (ex_host (Some reg_reject) false [ex_foo; ex_pair]) = [ex_foo; ex_pair] /\
  rpc_nodes (all_calls (Run (ex_host (Some reg_reject) false [ex_foo; ex_pair]) ex_world)) =
    [NewNode "" 50051 GRPC ex_foo] /\
  length (rpc_nodes (all_calls
            (Run (ex_host (Some reg_reject) false [ex_foo; ex_pair]) ex_world))) <>
  length (serviceList (ex_host (Some reg_reject) false [ex_foo; ex_pair])).
Proof. split; [by eexists|]. repeat split; try reflexivity. discriminate. Qed.

Lemma Run_Returns_units gs w gs' :
  rr_outcome (Run gs w) = Returns gs' ->
  snd (RunSetup gs w) = Ok gs' /\
  snd (run gs' w) = None /\
  (enableGateway gs' = true -> snd (runGateway gs' w) = None).
Proof.
  intros H. pose proof (Run_Returns_setup _ _ _ H) as Hs.
  split; [done|]. revert H. unfold Run.
  destruct (RunSetup gs w) as [tr [g|e|msg]]; simpl in *; try done.
  injection Hs as ->.
  destruct (enableGateway gs').
  - destruct (runGateway gs' w) as [tg [eg|]]; simpl; [done|].
    destruct (snd (run gs' w)); simpl; [done|]. by intros _.
  - simpl. destruct (snd (run gs' w)); simpl; [done|]. by intros _.
Qed.

Lemma run_None gs w :
  snd (run gs w) = None ->
  listen_err w = None /\ snd (discovery gs (port gs) GRPC) = None.
Proof.
  unfold run, run_startup. destruct (listen_err w); [done|].
  by destruct (discovery gs (port gs) GRPC) as [tr [e|]].
Qed.

Lemma runGateway_None gs w :
  is_Some (gSrvGateway gs) ->
  snd (runGateway gs w) = None ->
  snd (discovery gs (proxyPort gs) HTTP) = None.
Proof.
  unfold runGateway, runGateway_startup. intros [hs ->].
  by destruct (discovery gs (proxyPort gs) HTTP) as [tr [e|]].
Qed.

(** C6, amended: on a host built by [newGrpcServer] and [Register] calls,
    with a registrar configured and N services in its list, a [Run] that
    runs to its return (no [log.Fatal], no panic: the binding loop ran
    through, the listeners bound, the registrar accepted every Node, and
    both units stopped without error) has submitted exactly N Nodes of
    protocol RPC, with the binary port, one per service in list order; and
    exactly N Nodes of protocol HTTP, with the proxy port and pairing with
    the RPC Nodes service by service, when the gateway is enabled, none when
    it is disabled. *)
Theorem Run_submits_one_node_per_service (opt : Option) (l : list Service)
    (w : World) (gs' : grpcServer) :
  is_Some (ServerRegister opt) ->
  rr_outcome (Run (RegisterAll (newGrpcServer opt) l) w) = Returns gs' ->
  rpc_nodes (all_calls (Run (RegisterAll (newGrpcServer opt) l) w)) =
    NewNode "" (Port opt) GRPC <$> serviceList (RegisterAll (newGrpcServer opt) l) /\
  http_nodes (all_calls (Run (RegisterAll (newGrpcServer opt) l) w)) =
    (if EnableGrpcGateway opt
     then NewNode "" (ProxyPort opt) HTTP <$> serviceList (RegisterAll (newGrpcServer opt) l)
     else []) /\
  length (rpc_nodes (all_calls (Run (RegisterAll (newGrpcServer opt) l) w))) =
    length (serviceList (RegisterAll (newGrpcServer opt) l)) /\
  length (http_nodes (all_calls (Run (RegisterAll (newGrpcServer opt) l) w))) =
    (if EnableGrpcGateway opt
     then length (serviceList (RegisterAll (newGrpcServer opt) l)) else 0%nat) /\
  (EnableGrpcGateway opt = true ->
   node_service <$> http_nodes (all_calls (Run (RegisterAll (newGrpcServer opt) l) w)) =
   node_service <$> rpc_nodes (all_calls (Run (RegisterAll (newGrpcServer opt) l) w))).
Proof.
  intros Hreg Hret.
  set (gs := RegisterAll (newGrpcServer opt) l) in *.
  destruct (Run_Returns_units _ _ _ Hret) as (Hs & Hbin & Hgw).
  destruct (RunSetup_Ok_host _ _ _ Hs) as [g Hg].
  assert (Hb : built_by opt gs') by
    (rewrite Hg; apply built_by_set_gSrv, RegisterAll_built).
  assert (Hl : serviceList gs' = serviceList gs) by (by rewrite Hg).
  destruct Hb as [Hh Hp Hpp Hr He Hsg].
  assert (Hreg' : is_Some (register gs')) by (by rewrite Hr).
  destruct (run_None _ _ Hbin) as [Hlis Hd].
  assert (Hnodes : nodes_of (all_calls (Run gs w)) =
            (if EnableGrpcGateway opt
             then NewNode "" (ProxyPort opt) HTTP <$> serviceList gs else []) ++
            (NewNode "" (Port opt) GRPC <$> serviceList gs)).
  { rewrite Run_nodes, Hs, run_nodes, Hlis, He.
    rewrite (discovery_None _ _ _ Hreg' Hd), Hh, Hp, Hl.
    f_equal. destruct (EnableGrpcGateway opt) eqn:Hen; [|done].
    rewrite runGateway_nodes, Hsg.
    assert (Hdg : snd (discovery gs' (proxyPort gs') HTTP) = None).
    { apply (runGateway_None _ w); [rewrite Hsg; by eexists|].
      apply Hgw. by rewrite He. }
    by rewrite (discovery_None _ _ _ Hreg' Hdg), Hh, Hpp, Hl. }
  assert (Hrpc : rpc_nodes (all_calls (Run gs w)) =
                 NewNode "" (Port opt) GRPC <$> serviceList gs).
  { unfold rpc_nodes. rewrite Hnodes, filter_app, filter_type_same.
    destruct (EnableGrpcGateway opt); [|done].
    by rewrite filter_type_other. }
  assert (Hhttp : http_nodes (all_calls (Run gs w)) =
                  if EnableGrpcGateway opt
                  then NewNode "" (ProxyPort opt) HTTP <$> serviceList gs
                  else []).
  { unfold http_nodes. rewrite Hnodes, filter_app.
    rewrite (filter_type_other _ _ GRPC HTTP) by done. rewrite app_nil_r.
    destruct (EnableGrpcGateway opt); [|done].
    apply filter_type_same. }
  rewrite Hrpc, Hhttp. repeat split.
  - by rewrite length_fmap.
  - destruct (EnableGrpcGateway opt); [by rewrite length_fmap|done].
  - intros ->. rewrite <- !list_fmap_compose.
    by apply list_fmap_ext.
Qed.

Lemma Run_submits_one_node_per_service_witness :
  rpc_nodes (all_calls (Run (ex_host (Some reg_accept) true [ex_foo; ex_pair]) ex_world)) =
    [NewNode "" 50051 GRPC ex_foo; NewNode "" 50051 GRPC ex_pair] /\
  http_nodes (all_calls (Run (ex_host (Some reg_accept) true [ex_foo; ex_pair]) ex_world)) =
    [NewNode "" 8080 HTTP ex_foo; NewNode "" 8080 HTTP ex_pair].
Proof.
  destruct (Run_submits_one_node_per_service
              (ex_option (Some reg_accept) true) [ex_foo; ex_pair] ex_world
              (set_gSrv
                 (RegisterService
                    (RegisterService (grpc_NewServer [])
                       {| ServiceName := "foo.Foo" |} ex_foo)
                    {| ServiceName := "pair.B" |} ex_pair)
                 (ex_host (Some reg_accept) true [ex_foo; ex_pair])))
    as (Hrpc & Hhttp & _).
  - by eexists.
  - reflexivity.
  - split; [exact Hrpc | exact Hhttp].
Defined.


(** ** The gateway's middlewares *)

Lemma traceMiddleware_id {S} (h : Handler S) w r st :
  traceMiddleware h w r st = h w r st.
Proof. reflexivity. Qed.

(** No panic leaves the recover middleware. *)
Lemma recoverMiddleware_returns {S} (h : Handler S) w r st :
  snd (recoverMiddleware h w r st) = Returned.
Proof.
  unfold recoverMiddleware. by destruct (h w r st) as [[st' w'] [|v]].
Qed.

(** A request the inner handler serves without panicking passes through
    unchanged. *)
Lemma recoverMiddleware_transparent {S} (h : Handler S) w r st :
  snd (h w r st) = Returned -> recoverMiddleware h w r st = h w r st.
Proof.
  unfold recoverMiddleware. destruct (h w r st) as [[st' w'] [|v]]; [done|].
  discriminate.
Qed.

Lemma response_of_recovered w v :
  response_of (Write (Sprintf_v v) (WriteHeader StatusInternalServerError w)) =
  (if wroteHeader w then status w else StatusInternalServerError,
   body w +:+ Sprintf_v v).
Proof.
  by destruct w as [[] s b].
Qed.

(** Behind the recover middleware every request gets a response. *)
Lemma serveAll_recovered {S} (h : Handler S) reqs : forall st,
  Forall is_Some (serveAll (recoverMiddleware h) st reqs).
Proof.
  induction reqs as [|r rest IH]; intros st; simpl; [constructor|].
  pose proof (recoverMiddleware_returns h new_response r st) as Hr.
  destruct (recoverMiddleware h new_response r st) as [[st' w'] c].
  simpl in Hr. subst c. constructor; [by eexists|apply IH].
Qed.

(** The claim of C7 fails: the route writes "partial", which sends status
    200, and then panics with "boom"; the middleware recovers, its
    [WriteHeader(500)] comes too late, and the client receives 200 with body
    "partialboom", not 500 with body "boom". *)
Lemma recovered_after_partial_write :
  response_of
    (snd (fst (gatewayHandler ex_partial_then_panic new_response
                 {| req_method := "GET"; req_path := "/v1/foo" |} tt))) =
    (200, "partialboom") /\
  response_of
    (snd (fst (gatewayHandler ex_partial_then_panic new_response
                 {| req_method := "GET"; req_path := "/v1/foo" |} tt))) <>
    (StatusInternalServerError, Sprintf_v (AnyString "boom")).
Proof. split; [reflexivity | discriminate]. Qed.

(** C7, amended: for every HTTP request to the gateway whose handling
    panics, the outermost handler recovers the panic, calls
    [WriteHeader(500)] and writes the panic value's string representation
    after whatever the route had written; when the route had written nothing
    before it panicked the response has status 500 and a body equal to that
    representation.  No panic leaves the handler, so every request of any
    sequence gets a response, one that the route serves without panicking
    gets the route's own, and the listener keeps serving. *)
Theorem gateway_panic_becomes_500 {S : Type} (httpMux : Handler S)
    (w : ResponseWriter) (r : Request) (st st' : S) (w' : ResponseWriter)
    (v : any) :
  httpMux w r st = (st', w', Panicked v) ->
  gatewayHandler httpMux w r st =
    (st', Write (Sprintf_v v) (WriteHeader StatusInternalServerError w'), Returned) /\
  response_of (snd (fst (gatewayHandler httpMux w r st))) =
    (if wroteHeader w' then status w' else StatusInternalServerError,
     body w' +:+ Sprintf_v v) /\
  (wroteHeader w' = false -> body w' = "" ->
   response_of (snd (fst (gatewayHandler httpMux w r st))) =
     (StatusInternalServerError, Sprintf_v v)) /\
  (forall w0 r0 st0, snd (gatewayHandler httpMux w0 r0 st0) = Returned) /\
  (forall w0 r0 st0, snd (httpMux w0 r0 st0) = Returned ->
     gatewayHandler httpMux w0 r0 st0 = httpMux w0 r0 st0) /\
  (forall reqs st0, Forall is_Some (serveAll (gatewayHandler httpMux) st0 reqs)).
Proof.
  intros Hp.
  assert (Hg : gatewayHandler httpMux w r st =
               (st', Write (Sprintf_v v)
                       (WriteHeader StatusInternalServerError w'), Returned)).
  { unfold gatewayHandler, recoverMiddleware, traceMiddleware. by rewrite Hp. }
  split; [exact Hg|]. rewrite Hg. simpl.
  split; [apply response_of_recovered|].
  split.
  - intros Hw Hb. rewrite response_of_recovered, Hw, Hb. done.
  - split; [|split].
    + intros. apply recoverMiddleware_returns.
    + intros w0 r0 st0 H. by apply recoverMiddleware_transparent.
    + intros. apply serveAll_recovered.
Qed.

Lemma gateway_panic_becomes_500_witness :
  gatewayHandler ex_route new_response
    {| req_method := "GET"; req_path := "/boom" |} tt =
    (tt, {| wroteHeader := true; status := 500;
            body := "runtime error: nil map" |}, Returned) /\
  serveAll (gatewayHandler ex_route) tt
    [{| req_method := "GET"; req_path := "/boom" |};
     {| req_method := "GET"; req_path := "/v1/foo" |}] =
    [Some (500, "runtime error: nil map"); Some (200, "ok")].
Proof.
  split; [|reflexivity].
  apply (gateway_panic_becomes_500 ex_route new_response
           {| req_method := "GET"; req_path := "/boom" |} tt tt new_response
           (AnyError "runtime error: nil map")).
  reflexivity.
Defined.

(** ** The WaitGroup of Run *)

Lemma wg_counts_init gs : wg_counts gs Sys_init.
Proof. by repeat split. Qed.

(** Every step keeps the WaitGroup counter in line with the units. *)
Lemma step_wg_counts gs w a s s' :
  wg_counts gs s -> step gs w a s = Some s' -> wg_counts gs s'.
Proof.
  unfold step, wg_counts.
  destruct s as [pc n gw bin gww bw c ex tr]; simpl.
  intros [Hg Hpc] Hs. destruct ex; [done|].
  destruct a as [| |[]]; simpl in Hs;
    unfold step_RunBody, step_gateway, step_binary, step_binaryWatcher,
           step_gatewayWatcher in Hs;
    destruct pc, gw, bin; simpl in *;
    repeat (case_match; simplify_eq/=);
    try match goal with
        | H : bool_decide _ = true |- _ => apply bool_decide_eq_true_1 in H
        end;
    intuition (try congruence; try lia).
Qed.

Lemma exec_wg_counts gs w sched : forall s s',
  wg_counts gs s -> exec gs w sched s = Some s' -> wg_counts gs s'.
Proof.
  induction sched as [|a rest IH]; intros s s' Hi He; simpl in He.
  - by injection He as <-.
  - destruct (step gs w a s) as [s1|] eqn:Hs; [|done].
    eapply IH; [|exact He]. by eapply step_wg_counts.
Qed.










(** ** newGrpcServer *)

Lemma RegisterAll_gatewayMux l : forall gs,
  gatewayMux (RegisterAll gs l) = gatewayMux gs.
Proof.
  intros gs. by destruct (RegisterAll_frame l gs) as [l' ->].
Qed.

Lemma RegisterAll_gSrv l : forall gs, gSrv (RegisterAll gs l) = gSrv gs.
Proof.
  intros gs. by destruct (RegisterAll_frame l gs) as [l' ->].
Qed.

(** X1: on a host built by [newGrpcServer] and any [Register] calls the
    HTTP server and the route table exist exactly when the gateway is
    enabled: enabled, the HTTP server listens on the proxy port and
    [runGateway] gets past its nil check (its first call spawns its
    watcher); disabled, both are nil and [runGateway] returns nil at once
    without a call. *)
Theorem gateway_objects_follow_flag (opt : Option) (l : list Service) (w : World) :
  (EnableGrpcGateway opt = true ->
     gSrvGateway (RegisterAll (newGrpcServer opt) l) = Some {| Addr := ProxyPort opt |} /\
     gatewayMux (RegisterAll (newGrpcServer opt) l) = Some NewServeMux /\
     head (fst (runGateway (RegisterAll (newGrpcServer opt) l) w)) =
       Some (EvGo GatewayWatcher)) /\
  (EnableGrpcGateway opt = false ->
     gSrvGateway (RegisterAll (newGrpcServer opt) l) = None /\
     gatewayMux (RegisterAll (newGrpcServer opt) l) = None /\
     runGateway (RegisterAll (newGrpcServer opt) l) w = ([], None)).
Proof.
  pose proof (RegisterAll_built opt l) as [_ _ _ _ _ Hg].
  rewrite RegisterAll_gatewayMux.
  split; intros He; rewrite He in Hg.
  - split; [done|]. split.
    + unfold newGrpcServer. simpl. by rewrite He.
    + unfold runGateway, runGateway_startup. rewrite Hg.
      destruct (discovery _ _ _) as [tr [e|]]; [done|].
      by destruct (listenAndServe _ _).
  - split; [done|]. split.
    + unfold newGrpcServer. simpl. by rewrite He.
    + unfold runGateway. by rewrite Hg.
Qed.

Lemma gateway_objects_follow_flag_witness :
  gSrvGateway (ex_host None true [ex_foo]) = Some {| Addr := 8080 |} /\
  runGateway (ex_host None false [ex_foo]) ex_world = ([], None).
Proof.
  split.
  - apply (proj1 (gateway_objects_follow_flag (ex_option None true) [ex_foo] ex_world)).
    reflexivity.
  - apply (proj2 (gateway_objects_follow_flag (ex_option None false) [ex_foo] ex_world)).
    reflexivity.
Defined.

(** X2: the gRPC server of a new host is built with an interceptor-chain
    option only for a non-empty chain and with a stats-handler option only
    for a non-nil handler, in the order unary, stream, stats; with nothing
    configured it is built without options.  No service is bound to it and
    the service list is empty. *)
Theorem newGrpcServer_server_options (opt : Option) :
  srv_opts (gSrv (newGrpcServer opt)) =
    (if bool_decide (UnaryInterceptors opt = [])
     then [] else [WithUnaryServerChain (UnaryInterceptors opt)]) ++
    (if bool_decide (StreamInterceptors opt = [])
     then [] else [WithStreamServerChain (StreamInterceptors opt)]) ++
    match StatHandler opt with
    | Some h => [StatsHandler h]
    | None => []
    end /\
  srv_bound (gSrv (newGrpcServer opt)) = [] /\
  serviceList (newGrpcServer opt) = [].
Proof.
  unfold newGrpcServer, newGrpcServer_opts. simpl.
  destruct (EnableGrpcGateway opt); simpl;
    (split; [|by split]);
    destruct (UnaryInterceptors opt), (StreamInterceptors opt),
             (StatHandler opt); reflexivity.
Qed.

(** ** Register *)

(** X3: [Register] checks validity first: an invalid descriptor is
    reported as "invalid service description" whatever its method bindings,
    "not invalid grpc service desc" is returned exactly for a valid
    descriptor without method bindings, and nil exactly for a valid
    descriptor with at least one. *)
Theorem Register_reports_first_failed_check (gs : grpcServer) (srv : Service) :
  (fst (Register gs srv) = Some "invalid service description" <->
     Valid (Description_of srv) = false) /\
  (fst (Register gs srv) = Some "not invalid grpc service desc" <->
     Valid (Description_of srv) = true /\ GrpcServiceDesc (Description_of srv) = []) /\
  (fst (Register gs srv) = None <->
     Valid (Description_of srv) = true /\ GrpcServiceDesc (Description_of srv) <> []).
Proof.
  unfold Register.
  destruct (Valid (Description_of srv)); simpl;
    destruct (GrpcServiceDesc (Description_of srv)); simpl;
    repeat split; try done; intros; try discriminate;
    try (by destruct_and?).
Qed.

(** X4: a sequence of [Register] calls appends to the service list the
    services it accepts, in call order and without looking for duplicates,
    skips the others, and changes no other field of the host. *)
Theorem Register_sequence (gs : grpcServer) (l : list Service) :
  serviceList (RegisterAll gs l) =
    serviceList gs ++ filter (fun s => registrable s = true) l /\
  RegisterAll gs l = set_serviceList (serviceList (RegisterAll gs l)) gs /\
  (forall srv n, registrable srv = true ->
     serviceList (RegisterAll gs (replicate n srv)) =
       serviceList gs ++ replicate n srv).
Proof.
  split; [apply RegisterAll_serviceList|]. split.
  - by destruct (RegisterAll_frame l gs) as [l' ->].
  - intros srv n Hr. rewrite RegisterAll_serviceList. f_equal.
    induction n as [|n IH]; [done|]. simpl.
    rewrite filter_cons_True by done. by rewrite IH.
Qed.

Lemma Register_sequence_witness :
  serviceList (RegisterAll (ex_host None false [ex_foo]) (replicate 2 ex_bar)) =
    [ex_foo; ex_bar; ex_bar].
Proof.
  apply (proj2 (proj2 (Register_sequence (ex_host None false [ex_foo]) [])) ex_bar 2%nat).
  reflexivity.
Defined.

(** ** The binding phase of Run *)

Lemma bound_of_app t1 t2 : bound_of (t1 ++ t2) = bound_of t1 ++ bound_of t2.
Proof. apply omap_app. Qed.

(** Every function of the slice succeeds: all are called, in order. *)
Lemma gatewayLoop_all_ok mux conn fs :
  (forall f, f ∈ fs -> gw_call f mux conn = None) ->
  gatewayLoop mux conn fs = (gateway_call mux conn <$> fs, Ok tt).
Proof.
  induction fs as [|f fs IH]; intros Hok; [done|].
  apply injective_projections.
  - rewrite gatewayLoop_cons_fst, (Hok f) by (by left).
    rewrite IH by (intros g Hg; apply Hok; by right). done.
  - rewrite gatewayLoop_cons_snd, (Hok f) by (by left).
    rewrite IH by (intros g Hg; apply Hok; by right). done.
Qed.

(** X5: the functions of [desc.GrpcGateway] are called in slice order,
    each with the same route table and connection; when all return nil all
    are called and the loop falls through, and when the function at index
    [k] is the first to return an error the functions up to and including
    it are called, none after it, and the error goes to [log.Fatal]. *)
Theorem gatewayLoop_stops_at_first_error (mux : option ServeMux)
    (conn : ClientConn) (fs : list GatewayFn) :
  ((forall f, f ∈ fs -> gw_call f mux conn = None) ->
     gatewayLoop mux conn fs = (gateway_call mux conn <$> fs, Ok tt)) /\
  (forall (k : nat) (f : GatewayFn) (e : error),
     fs !! k = Some f ->
     gw_call f mux conn = Some e ->
     (forall j g, (j < k)%nat -> fs !! j = Some g -> gw_call g mux conn = None) ->
     gatewayLoop mux conn fs =
       (gateway_call mux conn <$> take (S k) fs, Fatal e)).
Proof.
  split; [apply gatewayLoop_all_ok|].
  induction fs as [|f0 fs IH]; intros k f e Hk He Hbefore; [done|].
  destruct k as [|k]; simpl in Hk.
  - injection Hk as ->. apply injective_projections.
    + by rewrite gatewayLoop_cons_fst, He.
    + by rewrite gatewayLoop_cons_snd, He.
  - assert (H0 : gw_call f0 mux conn = None)
      by (apply (Hbefore 0%nat); [lia|done]).
    assert (Hrec : gatewayLoop mux conn fs =
                   (gateway_call mux conn <$> take (S k) fs, Fatal e)).
    { apply (IH k f e Hk He). intros j g Hj Hg.
      apply (Hbefore (S j)); [lia|done]. }
    apply injective_projections.
    + rewrite gatewayLoop_cons_fst, H0, Hrec. done.
    + by rewrite gatewayLoop_cons_snd, H0, Hrec.
Qed.

Lemma gatewayLoop_stops_at_first_error_witness :
  gatewayLoop None {| cc_host := "127.0.0.1"; cc_port := 50051 |}
    [gw_ok "a"; gw_failing "b" "no route"; gw_ok "c"] =
  ([EvGatewayBind "a" None {| cc_host := "127.0.0.1"; cc_port := 50051 |};
    EvGatewayBind "b" None {| cc_host := "127.0.0.1"; cc_port := 50051 |}],
   Fatal "no route").
Proof.
  apply (proj2 (gatewayLoop_stops_at_first_error None
                  {| cc_host := "127.0.0.1"; cc_port := 50051 |}
                  [gw_ok "a"; gw_failing "b" "no route"; gw_ok "c"])
           1%nat (gw_failing "b" "no route") "no route").
  - reflexivity.
  - reflexivity.
  - intros [|j] g Hj Hg; [|lia]. by injection Hg as <-.
Defined.

Lemma bindLoop_Ok_opts mux conn l : forall i g g',
  snd (bindLoop mux conn i l g) = Ok g' -> srv_opts g' = srv_opts g.
Proof.
  induction l as [|srv rest IH]; intros i g g'.
  - simpl. by intros [= <-].
  - rewrite bindLoop_cons_snd.
    destruct (GrpcServiceDesc (Description_of srv) !! i); [|done].
    destruct (snd (gatewayLoop _ _ _)); try done.
    intros H. by rewrite (IH _ _ _ H).
Qed.

(** X6: when the binding loop runs through, the gRPC server holds its
    earlier bindings and after them exactly one new binding per registered
    service, in list order: for the service at position [k], the element at
    index [k] of that service's own [GrpcServiceDesc]. *)
Theorem binding_loop_binds_by_position (gs : grpcServer) (w : World)
    (gs' : grpcServer) :
  snd (RunSetup gs w) = Ok gs' ->
  length (srv_bound (gSrv gs')) =
    (length (srv_bound (gSrv gs)) + length (serviceList gs))%nat /\
  take (length (srv_bound (gSrv gs))) (srv_bound (gSrv gs')) = srv_bound (gSrv gs) /\
  (forall k srv, serviceList gs !! k = Some srv ->
     exists d, GrpcServiceDesc (Description_of srv) !! k = Some d /\
       srv_bound (gSrv gs') !! (length (srv_bound (gSrv gs)) + k)%nat = Some (d, srv)) /\
  srv_opts (gSrv gs') = srv_opts (gSrv gs).
Proof.
  intros Hs.
  destruct (RunSetup_binds_one_per_service _ _ _ Hs) as (ds & Hb & Hl & Hk).
  rewrite Hb. split; [|split; [|split]].
  - rewrite length_app, length_zip_with. lia.
  - by rewrite take_app_length.
  - intros k srv Hsrv.
    assert (Hlt : (k < length ds)%nat)
      by (rewrite Hl; by eapply lookup_lt_Some).
    destruct (lookup_lt_is_Some_2 _ _ Hlt) as [d Hd].
    exists d. split; [by eapply Hk|].
    rewrite lookup_app_r by lia.
    replace (length (srv_bound (gSrv gs)) + k - length (srv_bound (gSrv gs)))%nat
      with k by lia.
    rewrite lookup_zip_with, Hd, Hsrv. done.
  - revert Hs. rewrite RunSetup_snd. destruct (dial_err w); [done|].
    destruct (snd (bindLoop _ _ _ _ _)) as [g| |] eqn:Hg; [|done..].
    intros [= <-]. simpl. by eapply bindLoop_Ok_opts.
Qed.

Lemma binding_loop_binds_by_position_witness :
  exists gs',
    snd (RunSetup (ex_host None false [ex_foo; ex_pair]) ex_world) = Ok gs' /\
    length (srv_bound (gSrv gs')) = 2%nat /\
    srv_bound (gSrv gs') !! 1%nat = Some ({| ServiceName := "pair.B" |}, ex_pair).
Proof.
  eexists. split; [reflexivity|].
  destruct (binding_loop_binds_by_position
              (ex_host None false [ex_foo; ex_pair]) ex_world _ eq_refl)
    as (Hlen & _ & Hk & _).
  split; [exact Hlen|].
  destruct (Hk 1%nat ex_pair eq_refl) as (d & Hd & Hb).
  injection Hd as <-. exact Hb.
Defined.

Lemma bound_of_gatewayLoop mux conn fs :
  bound_of (fst (gatewayLoop mux conn fs)) = [].
Proof.
  induction fs as [|f fs IH]; [done|].
  rewrite gatewayLoop_cons_fst. simpl. by destruct (gw_call f mux conn).
Qed.

(** The loop from index [i]: it panics at the first position whose service
    has too few method bindings, with the services before it bound. *)
Lemma bindLoop_panics_at mux conn l : forall i g k srv,
  l !! k = Some srv ->
  (length (GrpcServiceDesc (Description_of srv)) <= i + k)%nat ->
  (forall j s, (j < k)%nat -> l !! j = Some s ->
     (i + j < length (GrpcServiceDesc (Description_of s)))%nat /\
     forall f, f ∈ GrpcGateway (Description_of s) -> gw_call f mux conn = None) ->
  snd (bindLoop mux conn i l g) = Panic "index out of range" /\
  length (bound_of (fst (bindLoop mux conn i l g))) = k.
Proof.
  induction l as [|s0 rest IH]; intros i g k srv Hk Hshort Hbefore; [done|].
  rewrite bindLoop_cons_snd, bindLoop_cons_fst.
  destruct k as [|k]; simpl in Hk.
  - injection Hk as ->. rewrite Nat.add_0_r in Hshort.
    by rewrite (lookup_ge_None_2 _ _ Hshort).
  - destruct (Hbefore 0%nat s0) as [Hlt Hgw]; [lia|done|].
    rewrite Nat.add_0_r in Hlt.
    destruct (lookup_lt_is_Some_2 _ _ Hlt) as [d ->].
    pose proof (bound_of_gatewayLoop mux conn (GrpcGateway (Description_of s0)))
      as Hnone.
    rewrite (gatewayLoop_all_ok _ _ _ Hgw) in *. cbn [fst snd] in *.
    destruct (IH (S i) (RegisterService g d s0) k srv Hk) as [Hp Hn].
    + lia.
    + intros j s Hj Hs. destruct (Hbefore (S j) s) as [H1 H2]; [lia|done|].
      split; [lia|done].
    + split; [done|].
      change (EvRegisterService d s0 :: ?t) with ([EvRegisterService d s0] ++ t).
      rewrite !bound_of_app, Hnone. simpl. by rewrite Hn.
Qed.

(** X7: the binding loop panics at the first position [k] whose service
    has at most [k] method bindings, provided the loop gets there (the dial
    succeeded and no gateway-binding function of an earlier service
    failed); the [k] services before it have been bound to the gRPC server
    by then, and [Run] ends in the panic without starting a unit. *)
Theorem binding_loop_panics_at_first_short_service (gs : grpcServer)
    (w : World) (k : nat) (srv : Service) :
  dial_err w = None ->
  serviceList gs !! k = Some srv ->
  (length (GrpcServiceDesc (Description_of srv)) <= k)%nat ->
  (forall j s, (j < k)%nat -> serviceList gs !! j = Some s ->
     (j < length (GrpcServiceDesc (Description_of s)))%nat /\
     forall f, f ∈ GrpcGateway (Description_of s) ->
       gw_call f (gatewayMux gs) (loopback gs) = None) ->
  rr_outcome (Run gs w) = Panics "index out of range" /\
  length (bound_of (rr_setup (Run gs w))) = k /\
  rr_binary (Run gs w) = None /\ rr_gateway (Run gs w) = None.
Proof.
  intros Hd Hk Hshort Hbefore.
  destruct (bindLoop_panics_at (gatewayMux gs) (loopback gs) (serviceList gs)
              0 (gSrv gs) k srv Hk Hshort Hbefore) as [Hp Hn].
  pose proof (RunSetup_snd gs w) as Hs. rewrite Hd, Hp in Hs.
  pose proof (RunSetup_fst gs w) as Hf. rewrite Hd in Hf.
  unfold Run. destruct (RunSetup gs w) as [tr r]. simpl in *. subst r tr.
  simpl. by rewrite Hn.
Qed.

Lemma binding_loop_panics_at_first_short_service_witness :
  rr_outcome (Run (ex_host None false [ex_pair; ex_foo; ex_bar]) ex_world) =
    Panics "index out of range" /\
  length (bound_of (rr_setup (Run (ex_host None false [ex_pair; ex_foo; ex_bar])
                                ex_world))) = 1%nat.
Proof.
  destruct (binding_loop_panics_at_first_short_service
              (ex_host None false [ex_pair; ex_foo; ex_bar]) ex_world 1%nat ex_foo)
    as (H1 & H2 & _).
  - reflexivity.
  - reflexivity.
  - simpl. lia.
  - intros [|j] s Hj Hs; [|lia]. injection Hs as <-. split; [simpl; lia|].
    intros f Hf. by apply elem_of_nil in Hf.
  - by split.
Defined.

Lemma gatewayLoop_bind_uses mux conn fs :
  Forall (fun e => is_dial e = false /\ bind_uses mux conn e)
         (fst (gatewayLoop mux conn fs)).
Proof.
  induction fs as [|f fs IH]; [constructor|].
  rewrite gatewayLoop_cons_fst. constructor; [done|].
  destruct (gw_call f mux conn); [constructor|done].
Qed.

Lemma bindLoop_bind_uses mux conn l : forall i g,
  Forall (fun e => is_dial e = false /\ bind_uses mux conn e)
         (fst (bindLoop mux conn i l g)).
Proof.
  induction l as [|srv rest IH]; intros i g; [constructor|].
  rewrite bindLoop_cons_fst.
  destruct (GrpcServiceDesc (Description_of srv) !! i); [|constructor].
  constructor; [done|]. apply Forall_app. split.
  - apply gatewayLoop_bind_uses.
  - destruct (snd (gatewayLoop _ _ _)); [apply IH|constructor..].
Qed.

Lemma discovery_bind_uses gs p t mux conn :
  Forall (fun e => is_dial e = false /\ bind_uses mux conn e)
         (fst (discovery gs p t)).
Proof.
  eapply Forall_impl; [apply discovery_events|]. by intros [].
Qed.

Lemma run_bind_uses gs w mux conn :
  Forall (fun e => is_dial e = false /\ bind_uses mux conn e) (fst (run gs w)).
Proof.
  unfold run, run_startup. destruct (listen_err w); [by repeat constructor|].
  pose proof (discovery_bind_uses gs (port gs) GRPC mux conn) as Hd.
  destruct (discovery gs (port gs) GRPC) as [tr [e|]]; simpl in *.
  - by repeat constructor.
  - repeat (constructor; [done|]).
    rewrite !Forall_app. by repeat constructor.
Qed.

Lemma runGateway_bind_uses gs w mux conn :
  Forall (fun e => is_dial e = false /\ bind_uses mux conn e)
         (fst (runGateway gs w)).
Proof.
  unfold runGateway, runGateway_startup, listenAndServe.
  destruct (gSrvGateway gs) as [hs|]; [|constructor].
  pose proof (discovery_bind_uses gs (proxyPort gs) HTTP mux conn) as Hd.
  destruct (discovery gs (proxyPort gs) HTTP) as [tr [e|]]; simpl in *.
  - by repeat constructor.
  - destruct (http_result w); simpl; constructor; try done;
      rewrite !Forall_app; by repeat constructor.
Qed.

(** X8: [Run] dials the loopback connection exactly once, as its first
    call and to 127.0.0.1 on the binary port, and every gateway-binding
    function it calls, of whichever service, is handed that one connection
    and the host's route table. *)
Theorem loopback_dialed_once_and_shared (gs : grpcServer) (w : World) :
  head (all_calls (Run gs w)) = Some (EvDial (loopback gs)) /\
  filter (fun e => is_dial e = true) (all_calls (Run gs w)) = [EvDial (loopback gs)] /\
  Forall (bind_uses (gatewayMux gs) (loopback gs)) (all_calls (Run gs w)).
Proof.
  assert (Hshape : exists rest,
            all_calls (Run gs w) = EvDial (loopback gs) :: rest /\
            Forall (fun e => is_dial e = false /\
                             bind_uses (gatewayMux gs) (loopback gs) e) rest).
  { unfold all_calls, Run.
    pose proof (RunSetup_fst gs w) as Hf.
    pose proof (RunSetup_snd gs w) as Hs.
    pose proof (bindLoop_bind_uses (gatewayMux gs) (loopback gs)
                  (serviceList gs) 0 (gSrv gs)) as Hb.
    destruct (RunSetup gs w) as [tr r]. simpl in Hf, Hs. subst tr.
    destruct (dial_err w) as [e|].
    - subst r. simpl. eexists. split; [reflexivity|constructor].
    - destruct r as [gs'|e|msg]; simpl.
      + eexists. split; [reflexivity|].
        rewrite !Forall_app. split; [split; [done|]|split].
        * destruct (enableGateway gs'); by repeat constructor.
        * destruct (enableGateway gs'); [|constructor].
          pose proof (runGateway_bind_uses gs' w (gatewayMux gs) (loopback gs)).
          by destruct (runGateway gs' w).
        * pose proof (run_bind_uses gs' w (gatewayMux gs) (loopback gs)).
          by destruct (run gs' w).
      + eexists. split; [reflexivity|]. by rewrite !app_nil_r.
      + eexists. split; [reflexivity|]. by rewrite !app_nil_r. }
  destruct Hshape as (rest & -> & Hrest).
  split; [done|]. split.
  - rewrite filter_cons_True by done. f_equal.
    induction Hrest as [|e rest [He _] _ IH]; [done|].
    rewrite filter_cons_False; [done|]. by rewrite He.
  - constructor; [done|]. eapply Forall_impl; [exact Hrest|]. by intros e [].
Qed.

Lemma gatewayLoop_setup_calls mux conn fs :
  Forall (fun e => is_setup_call e = true) (fst (gatewayLoop mux conn fs)).
Proof.
  induction fs as [|f fs IH]; [constructor|].
  rewrite gatewayLoop_cons_fst. constructor; [done|].
  destruct (gw_call f mux conn); [constructor|done].
Qed.

Lemma bindLoop_setup_calls mux conn l : forall i g,
  Forall (fun e => is_setup_call e = true) (fst (bindLoop mux conn i l g)).
Proof.
  induction l as [|srv rest IH]; intros i g; [constructor|].
  rewrite bindLoop_cons_fst.
  destruct (GrpcServiceDesc (Description_of srv) !! i); [|constructor].
  constructor; [done|]. apply Forall_app. split.
  - apply gatewayLoop_setup_calls.
  - destruct (snd (gatewayLoop _ _ _)); [apply IH|constructor..].
Qed.

Lemma RunSetup_setup_calls gs w :
  Forall (fun e => is_setup_call e = true) (fst (RunSetup gs w)).
Proof.
  rewrite RunSetup_fst. constructor; [done|].
  destruct (dial_err w); [constructor|apply bindLoop_setup_calls].
Qed.

(** X9: unless the binding phase completes, [Run] starts no goroutine: a
    failed dial, a failing gateway-binding function or the index panic ends
    [Run] with nothing listened on and no Node submitted; every call made is
    the dial, a service binding or a gateway-binding call.  When the dial
    fails the dial is the only call and its error goes to [log.Fatal]. *)
Theorem Run_aborts_before_units (gs : grpcServer) (w : World) :
  ((forall gs', snd (RunSetup gs w) <> Ok gs') ->
     rr_gateway (Run gs w) = None /\
     rr_binary (Run gs w) = None /\
     (forall gs', rr_outcome (Run gs w) <> Returns gs') /\
     nodes_of (all_calls (Run gs w)) = [] /\
     Forall (fun e => is_setup_call e = true) (all_calls (Run gs w))) /\
  (forall e, dial_err w = Some e ->
     all_calls (Run gs w) = [EvDial (loopback gs)] /\
     rr_outcome (Run gs w) = Exits [e]).
Proof.
  split.
  - intros Hno.
    pose proof (RunSetup_setup_calls gs w) as Hc.
    pose proof (Run_nodes gs w) as Hn.
    unfold all_calls, Run in *.
    destruct (RunSetup gs w) as [tr [gs'|e|msg]]; simpl in *.
    + by destruct (Hno gs').
    + rewrite ?app_nil_r in *. repeat split; done.
    + rewrite ?app_nil_r in *. repeat split; done.
  - intros e He.
    pose proof (RunSetup_fst gs w) as Hf.
    pose proof (RunSetup_snd gs w) as Hs.
    rewrite He in Hf, Hs. unfold all_calls, Run.
    destruct (RunSetup gs w) as [tr r]. simpl in *. by subst.
Qed.

Lemma Run_aborts_before_units_witness :
  rr_binary (Run (ex_host (Some reg_accept) true [ex_broken; ex_foo]) ex_world) = None /\
  nodes_of (all_calls (Run (ex_host (Some reg_accept) true [ex_broken; ex_foo])
                         ex_world)) = [].
Proof.
  destruct (proj1 (Run_aborts_before_units
                     (ex_host (Some reg_accept) true [ex_broken; ex_foo]) ex_world))
    as (_ & Hb & _ & Hn & _).
  - intros gs'. discriminate.
  - by split.
Defined.

(** X10: with no service registered, [Run] binds nothing and calls no
    gateway-binding function: after a successful dial the binding phase
    leaves the host as it was, and no Node is submitted by either unit
    whatever the registrar. *)
Theorem Run_without_services (gs : grpcServer) (w : World) :
  serviceList gs = [] ->
  dial_err w = None ->
  RunSetup gs w = ([EvDial (loopback gs)], Ok gs) /\
  rr_binary (Run gs w) = Some (run gs w) /\
  nodes_of (all_calls (Run gs w)) = [].
Proof.
  intros Hl Hd.
  assert (Hs : RunSetup gs w = ([EvDial (loopback gs)], Ok gs)).
  { apply injective_projections.
    - rewrite RunSetup_fst, Hd, Hl. done.
    - rewrite RunSetup_snd, Hd, Hl. simpl. by destruct gs. }
  split; [done|]. split.
  - unfold Run. by rewrite Hs.
  - rewrite Run_nodes, Hs. simpl.
    rewrite run_nodes, runGateway_nodes.
    unfold discovery. rewrite Hl.
    destruct (enableGateway gs), (gSrvGateway gs), (listen_err w),
             (register gs); done.
Qed.

Lemma Run_without_services_witness :
  nodes_of (all_calls (Run (ex_host (Some reg_reject) true []) ex_world)) = [].
Proof.
  apply (Run_without_services (ex_host (Some reg_reject) true []) ex_world);
    reflexivity.
Defined.

(** ** The registration loops *)

Lemma discoveryLoop_None_iff reg h p t l :
  snd (discoveryLoop reg h p t l) = None <->
  forall srv, srv ∈ l -> reg (NewNode h p t srv) = None.
Proof.
  induction l as [|s rest IH]; simpl.
  - split; [|done]. intros _ srv H. by apply elem_of_nil in H.
  - destruct (reg (NewNode h p t s)) eqn:Hr; simpl.
    + split; [done|]. intros H. specialize (H s (list_elem_of_here _ _)).
      congruence.
    + destruct (discoveryLoop reg h p t rest) as [tr r]. simpl in *.
      rewrite IH. split.
      * intros H srv Hin. apply elem_of_cons in Hin as [->|Hin]; [done|].
        by apply H.
      * intros H srv Hin. apply H. by right.
Qed.

Lemma discovery_None_iff gs p t :
  snd (discovery gs p t) = None <-> all_accepted gs p t.
Proof.
  unfold discovery, all_accepted. destruct (register gs) as [reg|].
  - rewrite discoveryLoop_None_iff. split.
    + by intros H reg' [= <-].
    + intros H. by apply H.
  - split; [|done]. by intros _ reg' H.
Qed.

(** X11: the registration loop submits the Nodes in list order and stops
    at the first one the registrar turns down: when the service at position
    [k] is the first whose Node is rejected, the Nodes of the services up to
    and including it have been submitted, none of the later ones, and the
    registrar's error is returned. *)
Theorem discoveryLoop_stops_at_first_rejection (reg : Registrar) (h : string)
    (p : Z) (t : NodeType) (l : list Service) (k : nat) (srv : Service)
    (e : error) :
  l !! k = Some srv ->
  reg (NewNode h p t srv) = Some e ->
  (forall j s, (j < k)%nat -> l !! j = Some s -> reg (NewNode h p t s) = None) ->
  discoveryLoop reg h p t l =
    (EvDiscovery <$> (NewNode h p t <$> take (S k) l), Some e).
Proof.
  revert k. induction l as [|s0 rest IH]; intros k Hk He Hbefore; [done|].
  destruct k as [|k]; simpl in Hk.
  - injection Hk as ->. simpl. by rewrite He.
  - assert (H0 : reg (NewNode h p t s0) = None)
      by (apply (Hbefore 0%nat); [lia|done]).
    simpl. rewrite H0.
    rewrite (IH k Hk He); [done|].
    intros j s Hj Hs. apply (Hbefore (S j)); [lia|done].
Qed.

Lemma discoveryLoop_stops_at_first_rejection_witness :
  discoveryLoop
    (fun n => if String.eqb (srv_name (node_service n)) "Bar"
              then Some "duplicate" else None)
    "" 50051 GRPC [ex_foo; ex_bar; ex_pair] =
  ([EvDiscovery (NewNode "" 50051 GRPC ex_foo);
    EvDiscovery (NewNode "" 50051 GRPC ex_bar)], Some "duplicate").
Proof.
  apply (discoveryLoop_stops_at_first_rejection _ "" 50051 GRPC
           [ex_foo; ex_bar; ex_pair] 1%nat ex_bar "duplicate").
  - reflexivity.
  - reflexivity.
  - intros [|j] s Hj Hs; [|lia]. by injection Hs as <-.
Defined.

Lemma discoveryLoop_nodes_services reg h p t l :
  Forall (fun n => node_service n ∈ l)
         (nodes_of (fst (discoveryLoop reg h p t l))).
Proof.
  induction l as [|s rest IH]; simpl; [constructor|].
  destruct (reg (NewNode h p t s)).
  - simpl. repeat constructor.
  - destruct (discoveryLoop reg h p t rest) as [tr r]. simpl in *.
    constructor; [by left|].
    eapply Forall_impl; [exact IH|]. intros n Hn. by right.
Qed.

Lemma discovery_nodes_services gs p t :
  Forall (fun n => node_service n ∈ serviceList gs)
         (nodes_of (fst (discovery gs p t))).
Proof.
  unfold discovery. destruct (register gs); [|constructor].
  apply discoveryLoop_nodes_services.
Qed.

(** X12: every Node that [Run] submits, in whatever world and however
    [Run] ends, is built for a registered service and carries the host's
    advertised address; it is an RPC Node with the binary port or, only when
    the gateway is enabled, an HTTP Node with the proxy port.  With no
    registrar configured no Node is built or submitted at all. *)
Theorem Run_submits_only_nodes_of_the_host (gs : grpcServer) (w : World) :
  Forall (node_of_host gs) (nodes_of (all_calls (Run gs w))) /\
  (register gs = None -> nodes_of (all_calls (Run gs w)) = []).
Proof.
  rewrite Run_nodes.
  destruct (snd (RunSetup gs w)) as [gs'| |] eqn:Hs; [|by split..].
  destruct (RunSetup_Ok_host _ _ _ Hs) as [g ->].
  rewrite run_nodes, runGateway_nodes. simpl.
  split.
  - apply Forall_app. split.
    + destruct (enableGateway gs) eqn:He; [|constructor].
      destruct (gSrvGateway gs); [|constructor].
      pose proof (discovery_nodes (set_gSrv g gs) (proxyPort gs) HTTP) as H1.
      pose proof (discovery_nodes_services (set_gSrv g gs) (proxyPort gs) HTTP) as H2.
      assert (H := proj2 (Forall_and _ _) (conj H1 H2)).
      eapply Forall_impl; [exact H|].
      intros n [(Hh & Hp & Ht) Hsv]. unfold node_of_host. simpl in *. tauto.
    + destruct (listen_err w); [constructor|].
      pose proof (discovery_nodes (set_gSrv g gs) (port gs) GRPC) as H1.
      pose proof (discovery_nodes_services (set_gSrv g gs) (port gs) GRPC) as H2.
      assert (H := proj2 (Forall_and _ _) (conj H1 H2)).
      eapply Forall_impl; [exact H|].
      intros n [(Hh & Hp & Ht) Hsv]. unfold node_of_host. simpl in *. tauto.
  - intros Hr. unfold discovery. simpl. rewrite Hr.
    by destruct (enableGateway gs), (gSrvGateway gs), (listen_err w).
Qed.

Lemma Run_submits_only_nodes_of_the_host_witness :
  nodes_of (all_calls (Run (ex_host None true [ex_foo; ex_pair]) ex_world)) = [].
Proof.
  apply (proj2 (Run_submits_only_nodes_of_the_host
                  (ex_host None true [ex_foo; ex_pair]) ex_world)).
  reflexivity.
Defined.

(** ** What the units return *)

Lemma not_discovery_not_in e tr :
  is_discovery e = false ->
  Forall (fun e' => is_discovery e' = true) tr -> e ∉ tr.
Proof.
  intros He Hall Hin. rewrite Forall_forall in Hall.
  specialize (Hall e Hin). congruence.
Qed.

(** X13: the binary-serve unit calls [Serve] exactly when the socket is
    bound and the registrar (if any) has accepted the Node of every
    registered service, and it returns nil exactly when, moreover, [Serve]
    returns nil.  When [net.Listen] fails it returns that error without
    spawning its watcher, submitting a Node or serving. *)
Theorem run_serves_and_returns (gs : grpcServer) (w : World) :
  (EvServe ∈ fst (run gs w) <->
     listen_err w = None /\ all_accepted gs (port gs) GRPC) /\
  (snd (run gs w) = None <->
     listen_err w = None /\ all_accepted gs (port gs) GRPC /\ serve_err w = None) /\
  (forall e, listen_err w = Some e ->
     run gs w = ([EvListen (port gs) false], Some e)).
Proof.
  rewrite <- discovery_None_iff.
  pose proof (discovery_events gs (port gs) GRPC) as Hev.
  unfold run, run_startup.
  destruct (listen_err w) as [e0|].
  - split; [|split].
    + split; [|by intros []]. simpl. intros H.
      apply list_elem_of_singleton in H. discriminate.
    + split; [done|by intros []].
    + by intros e [= ->].
  - destruct (discovery gs (port gs) GRPC) as [tr [e|]]; simpl in *.
    + split; [|split; [|done]].
      * split; [|by intros []]. intros H.
        apply elem_of_cons in H as [H|H]; [done|].
        apply elem_of_cons in H as [H|H]; [done|].
        by apply (not_discovery_not_in EvServe tr) in H.
      * split; [done|by intros (_ & ? & _)].
    + split; [|split; [|done]].
      * split; [done|]. intros _.
        rewrite !elem_of_cons, !elem_of_app, !elem_of_cons. auto 10.
      * split; [by intros ->|by intros (_ & _ & ?)].
Qed.

Lemma http_listen_in_suffix pre post p b :
  Forall (fun e => is_http_listen e = false) pre ->
  EvHttpListen p b ∈ pre ++ post -> EvHttpListen p b ∈ post.
Proof.
  intros Hpre H. apply elem_of_app in H as [H|H]; [|done].
  rewrite Forall_forall in Hpre. by specialize (Hpre _ H).
Qed.

(** X14: the gateway-serve unit returns nil exactly when the host has no
    HTTP server (the nil check) or the registrar (if any) has accepted the
    HTTP Node of every registered service and [ListenAndServe] ends with
    [ErrServerClosed]; any bind or serve error is returned.  The HTTP socket
    is bound only after every Node was accepted. *)
Theorem runGateway_returns (gs : grpcServer) (w : World) :
  (snd (runGateway gs w) = None <->
     gSrvGateway gs = None \/
     (all_accepted gs (proxyPort gs) HTTP /\ closed_http (http_result w) = true)) /\
  (forall p b, EvHttpListen p b ∈ fst (runGateway gs w) ->
     all_accepted gs (proxyPort gs) HTTP /\
     exists hs, gSrvGateway gs = Some hs /\ p = Addr hs) /\
  (forall e, all_accepted gs (proxyPort gs) HTTP -> is_Some (gSrvGateway gs) ->
     http_result w = BindFailed e \/ http_result w = ServeFailed e ->
     snd (runGateway gs w) = Some e).
Proof.
  rewrite <- discovery_None_iff.
  pose proof (discovery_None_iff gs (proxyPort gs) HTTP) as Hiff.
  pose proof (discovery_events gs (proxyPort gs) HTTP) as Hev.
  unfold runGateway, runGateway_startup, listenAndServe.
  destruct (gSrvGateway gs) as [hs|].
  - destruct (discovery gs (proxyPort gs) HTTP) as [tr [e|]]; simpl in *.
    + split; [|split].
      * intuition congruence.
      * intros p b H. apply elem_of_cons in H as [H|H]; [done|].
        by apply (not_discovery_not_in (EvHttpListen p b) tr) in H.
      * intros e0 H. apply Hiff in H. discriminate H.
    + split; [|split].
      * destruct (http_result w); simpl; intuition congruence.
      * intros p b H. split; [by apply Hiff|]. exists hs. split; [done|].
        assert (Hpre : Forall (fun e => is_http_listen e = false)
                         (EvGo GatewayWatcher ::
                          tr ++ [EvLog (GatewayStart (proxyPort gs))])).
        { constructor; [done|]. apply Forall_app. split; [|by repeat constructor].
          eapply Forall_impl; [exact Hev|]. by intros []. }
        destruct (http_result w); simpl in H;
          apply (http_listen_in_suffix _ _ _ _ Hpre) in H;
          repeat (apply elem_of_cons in H as [H|H]);
          try (by apply elem_of_nil in H); try done;
          by injection H.
      * intros e0 _ _ [->| ->]; done.
  - split; [|split].
    + split; [by left|done].
    + intros p b H. by apply elem_of_nil in H.
    + by intros e _ [].
Qed.

Lemma runGateway_returns_witness :
  snd (runGateway (ex_host (Some reg_accept) true [ex_foo]) ex_world_port_taken) =
    Some "address already in use".
Proof.
  apply (proj2 (proj2 (runGateway_returns
                         (ex_host (Some reg_accept) true [ex_foo])
                         ex_world_port_taken))).
  - intros reg Hreg srv Hin. injection Hreg as <-. reflexivity.
  - by eexists.
  - by left.
Defined.

Lemma run_serves_and_returns_witness :
  run (ex_host (Some reg_accept) false [ex_foo])
    {| dial_err := None; listen_err := Some "address already in use";
       serve_err := None; http_result := ServerClosed; shutdown_err := None |} =
  ([EvListen 50051 false], Some "address already in use").
Proof.
  apply (proj2 (proj2 (run_serves_and_returns
                         (ex_host (Some reg_accept) false [ex_foo])
                         {| dial_err := None;
                            listen_err := Some "address already in use";
                            serve_err := None; http_result := ServerClosed;
                            shutdown_err := None |}))).
  reflexivity.
Defined.

(** ** How Run ends *)

(** X15: [Run] returns exactly when its binding phase completes and every
    unit it starts returns nil: the binary-serve unit, and the gateway-serve
    unit when the gateway is enabled.  The host it leaves differs from the
    one it was called on in the gRPC server only.  An error returned by the
    binary-serve unit goes to [log.Fatal] as "server run error:" followed by
    the error, one of the gateway-serve unit as "server gateway run error:"
    followed by the error. *)
Theorem Run_returns_iff (gs : grpcServer) (w : World) (gs' : grpcServer) :
  (rr_outcome (Run gs w) = Returns gs' <->
     snd (RunSetup gs w) = Ok gs' /\
     snd (run gs' w) = None /\
     (enableGateway gs' = true -> snd (runGateway gs' w) = None)) /\
  (rr_outcome (Run gs w) = Returns gs' -> gs' = set_gSrv (gSrv gs') gs) /\
  (forall e, snd (RunSetup gs w) = Ok gs' -> snd (run gs' w) = Some e ->
     exists msgs, rr_outcome (Run gs w) = Exits msgs /\
                  ("server run error:" +:+ e) ∈ msgs) /\
  (forall e, snd (RunSetup gs w) = Ok gs' -> enableGateway gs' = true ->
     snd (runGateway gs' w) = Some e ->
     exists msgs, rr_outcome (Run gs w) = Exits msgs /\
                  ("server gateway run error:" +:+ e) ∈ msgs).
Proof.
  split; [split|split; [|split]].
  - apply Run_Returns_units.
  - intros (Hs & Hb & Hg). unfold Run.
    destruct (RunSetup gs w) as [tr r]. simpl in Hs. subst r.
    rewrite Hb. destruct (enableGateway gs'); [|done].
    specialize (Hg eq_refl). destruct (runGateway gs' w) as [tg rg].
    simpl in Hg. by subst rg.
  - intros H. apply Run_Returns_setup in H.
    destruct (RunSetup_Ok_host _ _ _ H) as [g ->]. done.
  - intros e Hs Hb. unfold Run.
    destruct (RunSetup gs w) as [tr r]. simpl in Hs. subst r.
    rewrite Hb. cbn [fatal_of rr_outcome].
    destruct (enableGateway gs').
    + destruct (runGateway gs' w) as [tg [eg|]]; cbn [fatal_of app];
        eexists; (split; [reflexivity|]);
        rewrite ?elem_of_cons; auto.
    + eexists. split; [reflexivity|]. by apply list_elem_of_singleton.
  - intros e Hs He Hg. unfold Run.
    destruct (RunSetup gs w) as [tr r]. simpl in Hs. subst r.
    rewrite He. destruct (runGateway gs' w) as [tg rg]. simpl in Hg. subst rg.
    cbn [fatal_of rr_outcome app]. eexists. split; [reflexivity|].
    by left.
Qed.

Lemma Run_returns_iff_witness :
  exists msgs,
    rr_outcome (Run (ex_host (Some reg_accept) true [ex_foo]) ex_world_port_taken) =
      Exits msgs /\
    "server gateway run error:address already in use" ∈ msgs.
Proof.
  apply (proj2 (proj2 (proj2 (Run_returns_iff
           (ex_host (Some reg_accept) true [ex_foo]) ex_world_port_taken
           (set_gSrv (RegisterService (grpc_NewServer [])
                        {| ServiceName := "foo.Foo" |} ex_foo)
              (ex_host (Some reg_accept) true [ex_foo])))))
           "address already in use"); reflexivity.
Defined.

Lemma run_binary_calls gs w :
  Forall (fun e => is_http_listen e = false /\ e <> EvGo GatewayUnit)
         (fst (run gs w)).
Proof.
  unfold run, run_startup. destruct (listen_err w); [by repeat constructor|].
  pose proof (discovery_events gs (port gs) GRPC) as Hd.
  assert (Hd' : Forall (fun e => is_http_listen e = false /\ e <> EvGo GatewayUnit)
                  (fst (discovery gs (port gs) GRPC)))
    by (eapply Forall_impl; [exact Hd|]; by intros []).
  destruct (discovery gs (port gs) GRPC) as [tr [e|]]; simpl in *.
  - by repeat constructor.
  - repeat (constructor; [done|]).
    rewrite !Forall_app. by repeat constructor.
Qed.

Lemma filter_http_of_rpc (l : list Node) :
  Forall (fun n => node_type n = GRPC) l ->
  filter (fun n => node_type n = HTTP) l = [].
Proof.
  induction 1 as [|n l Hn _ IH]; [done|].
  rewrite filter_cons_False; [done|]. by rewrite Hn.
Qed.

(** X16: with the gateway disabled [Run] starts the binary-serve unit
    only: in every world, however [Run] ends, there is no gateway goroutine,
    the HTTP socket is never bound and no HTTP Node is submitted. *)
Theorem Run_without_gateway (gs : grpcServer) (w : World) :
  enableGateway gs = false ->
  rr_gateway (Run gs w) = None /\
  Forall (fun e => is_http_listen e = false /\ e <> EvGo GatewayUnit)
         (all_calls (Run gs w)) /\
  http_nodes (all_calls (Run gs w)) = [].
Proof.
  intros He.
  assert (Hsetup : Forall (fun e => is_http_listen e = false /\
                                    e <> EvGo GatewayUnit)
                     (fst (RunSetup gs w))).
  { eapply Forall_impl; [apply RunSetup_setup_calls|]. by intros []. }
  split; [|split].
  - unfold Run. destruct (RunSetup gs w) as [tr [gs'|e|msg]] eqn:Hs; try done.
    assert (Hok : snd (RunSetup gs w) = Ok gs') by (by rewrite Hs).
    destruct (RunSetup_Ok_host _ _ _ Hok) as [g ->]. simpl. by rewrite He.
  - unfold all_calls, Run.
    destruct (RunSetup gs w) as [tr [gs'|e|msg]] eqn:Hs; simpl in *;
      rewrite ?app_nil_r; try done.
    assert (Hok : snd (RunSetup gs w) = Ok gs') by (by rewrite Hs).
    destruct (RunSetup_Ok_host _ _ _ Hok) as [g ->]. simpl. rewrite He. simpl.
    rewrite !Forall_app. split; [split; [done|by repeat constructor]|].
    pose proof (run_binary_calls (set_gSrv g gs) w) as Hr.
    by destruct (run (set_gSrv g gs) w).
  - unfold http_nodes. rewrite Run_nodes.
    destruct (snd (RunSetup gs w)) as [gs'| |] eqn:Hs; try done.
    destruct (RunSetup_Ok_host _ _ _ Hs) as [g ->]. simpl. rewrite He. simpl.
    apply filter_http_of_rpc. rewrite run_nodes.
    destruct (listen_err w); [constructor|].
    eapply Forall_impl; [apply discovery_nodes|]. by intros n (_ & _ & ?).
Qed.

Lemma Run_without_gateway_witness :
  rr_gateway (Run (ex_host (Some reg_accept) false [ex_web]) ex_world) = None /\
  http_nodes (all_calls (Run (ex_host (Some reg_accept) false [ex_web]) ex_world)) = [].
Proof.
  destruct (Run_without_gateway (ex_host (Some reg_accept) false [ex_web])
              ex_world eq_refl) as (Hg & _ & Hn).
  by split.
Defined.

(** ** The goroutines of Run *)

Ltac unfold_steps H :=
  unfold step, step_RunBody, step_gateway, step_binary, step_binaryWatcher,
         step_gatewayWatcher in H.

Lemma exec_invariant (I : Sys -> Prop) gs w :
  (forall a s s', I s -> step gs w a s = Some s' -> I s') ->
  forall sched s s', I s -> exec gs w sched s = Some s' -> I s'.
Proof.
  intros Hstep. induction sched as [|a rest IH]; intros s s' Hi He; simpl in He.
  - by injection He as <-.
  - destruct (step gs w a s) as [s1|] eqn:Hs; [|done].
    eapply IH; [|exact He]. by eapply Hstep.
Qed.

(** X17: in every interleaving the WaitGroup counter equals the number
    of serving goroutines that have been started and have not finished, so
    it never exceeds two, and the deferred [wg.Done()] of a finishing unit
    always finds it positive. *)
Theorem WaitGroup_counts_running_units (gs : grpcServer) (w : World)
    (sched : list Actor) (s : Sys) :
  exec gs w sched Sys_init = Some s ->
  sys_wg s = (active (sys_gateway s) + active (sys_binary s))%nat /\
  (sys_wg s <= 2)%nat /\
  (forall g s', step gs w (Go g) s = Some s' ->
     (sys_gateway s' = Finished /\ sys_gateway s <> Finished) \/
     (sys_binary s' = Finished /\ sys_binary s <> Finished) ->
     sys_wg s = S (sys_wg s')).
Proof.
  intros He.
  pose proof (exec_wg_counts gs w sched _ _ (wg_counts_init gs) He) as [Hg Hpc].
  assert (Hwg : sys_wg s = (active (sys_gateway s) + active (sys_binary s))%nat).
  { destruct (sys_pc s), (enableGateway gs);
      destruct (sys_gateway s), (sys_binary s); simpl in *;
      intuition (try congruence; try lia). }
  split; [exact Hwg|]. split.
  - rewrite Hwg. destruct (sys_gateway s), (sys_binary s); simpl; lia.
  - intros g s' Hs Hfin. unfold_steps Hs.
    destruct s as [pc n gw bin gww bw c ex tr]; simpl in *.
    destruct ex; [done|].
    destruct g, gw, bin; simpl in *;
      repeat (case_match; simplify_eq/=);
      intuition (try congruence; try lia).
Qed.

Lemma WaitGroup_counts_running_units_witness :
  exists s,
    exec (ex_host None true [ex_foo]) ex_world
      [RunBody; RunBody; Go BinaryUnit] Sys_init = Some s /\
    sys_wg s = 2%nat.
Proof.
  eexists. split; [reflexivity|].
  apply (WaitGroup_counts_running_units (ex_host None true [ex_foo]) ex_world
           [RunBody; RunBody; Go BinaryUnit]).
  reflexivity.
Defined.

Lemma stop_order_init gs : stop_order gs Sys_init.
Proof.
  unfold stop_order. simpl. intuition congruence.
Qed.

Lemma step_stop_order gs w a s s' :
  stop_order gs s -> step gs w a s = Some s' -> stop_order gs s'.
Proof.
  unfold stop_order. intros (H1 & H2 & H3 & H4 & H5) Hs. unfold_steps Hs.
  destruct s as [pc n gw bin gww bw c ex tr]; simpl in *.
  destruct ex; [done|].
  destruct a as [| |[]]; simpl in Hs; repeat case_match; simplify_eq/=;
    unfold binaryWatcher, gatewayWatcher_begin;
    rewrite ?elem_of_app, ?elem_of_cons;
    intuition (try congruence;
               try match goal with
                   | H : is_Some None |- _ => by destruct H
                   end).
Qed.

(** X18: [Run] returns only after the context has been cancelled: in
    every interleaving, once [wg.Wait()] has returned the context is
    cancelled and the binary watcher has called [GracefulStop]; and when the
    gateway is enabled on a host with an HTTP server, the gateway watcher
    has called [Shutdown]. *)
Theorem Run_returns_only_after_cancellation (gs : grpcServer) (w : World)
    (sched : list Actor) (s : Sys) :
  exec gs w sched Sys_init = Some s ->
  sys_pc s = AtReturn ->
  sys_cancelled s = true /\
  EvGracefulStop ∈ sys_calls s /\
  (enableGateway gs = true -> is_Some (gSrvGateway gs) ->
     EvShutdown ∈ sys_calls s).
Proof.
  intros He Hpc.
  pose proof (exec_wg_counts gs w sched _ _ (wg_counts_init gs) He) as [_ Hw].
  pose proof (exec_invariant (stop_order gs) gs w (step_stop_order gs w)
                sched _ _ (stop_order_init gs) He)
    as (H1 & H2 & _ & H4 & H5).
  rewrite Hpc in Hw. destruct Hw as (_ & Hb & Hg).
  destruct (H2 (H1 Hb)) as [Hc Hstop].
  split; [done|]. split; [done|].
  intros Hen Hhs. by destruct (H5 (H4 (Hg Hen) Hhs)).
Qed.

Lemma Run_returns_only_after_cancellation_witness :
  exists s,
    exec (ex_host (Some reg_accept) true [ex_foo]) ex_world
      [RunBody; RunBody; Go GatewayUnit; Go BinaryUnit; CancelCtx;
       Go GatewayWatcher; Go BinaryWatcher; Go GatewayUnit; Go BinaryUnit;
       RunBody] Sys_init = Some s /\
    sys_cancelled s = true /\ EvGracefulStop ∈ sys_calls s.
Proof.
  eexists.
  assert (Hx : exec (ex_host (Some reg_accept) true [ex_foo]) ex_world
                 [RunBody; RunBody; Go GatewayUnit; Go BinaryUnit; CancelCtx;
                  Go GatewayWatcher; Go BinaryWatcher; Go GatewayUnit;
                  Go BinaryUnit; RunBody] Sys_init = Some _)
    by (vm_compute; reflexivity).
  split; [exact Hx|].
  destruct (Run_returns_only_after_cancellation _ _ _ _ Hx eq_refl)
    as (Hc & Hs & _).
  by split.
Defined.

Lemma never_both_init gs : never_both gs Sys_init.
Proof. split; [apply wg_counts_init|done]. Qed.

Lemma step_never_both gs w a s s' :
  never_both gs s -> step gs w a s = Some s' -> never_both gs s'.
Proof.
  intros [Hw Hx] Hs. split; [by eapply step_wg_counts|].
  destruct Hw as [Hgi Hw]. unfold_steps Hs.
  destruct s as [pc n gw bin gww bw c ex tr]; simpl in *.
  destruct ex; [done|].
  destruct (enableGateway gs);
    destruct a as [| |[]]; simpl in Hs;
    destruct pc; repeat case_match; simplify_eq/=;
    intuition (try congruence).
Qed.

Lemma step_returned_for_good gs w a s s' :
  returned_for_good s -> step gs w a s = Some s' -> returned_for_good s'.
Proof.
  unfold returned_for_good. intros (Hpc & Hex & Hb & Hg) Hs. unfold_steps Hs.
  destruct s as [pc n gw bin gww bw c ex tr]; simpl in *. subst.
  destruct a as [| |[]]; simpl in Hs; repeat case_match; simplify_eq/=;
    intuition (try congruence).
Qed.

(** X19: a return of [Run] and a [log.Fatal] exclude each other in every
    interleaving: once a goroutine has called [log.Fatal] nothing moves any
    more and [Run] has not returned and never will; and once [Run] has
    returned no serving goroutine is left, so in whatever follows (the
    watchers may still be finishing their stop calls) no [log.Fatal] is
    called. *)
Theorem Fatal_and_return_exclude (gs : grpcServer) (w : World)
    (sched : list Actor) (s : Sys) :
  exec gs w sched Sys_init = Some s ->
  (sys_exited s = true ->
     sys_pc s <> AtReturn /\ forall a, step gs w a s = None) /\
  (sys_pc s = AtReturn ->
     forall sched' s', exec gs w sched' s = Some s' ->
       sys_exited s' = false /\ sys_pc s' = AtReturn).
Proof.
  intros He.
  pose proof (exec_invariant (never_both gs) gs w (step_never_both gs w)
                sched _ _ (never_both_init gs) He) as [[Hgi Hw] Hx].
  split.
  - intros Hex. split; [by apply Hx|].
    intros a. unfold step. by rewrite Hex.
  - intros Hpc sched' s' He'.
    assert (Hr : returned_for_good s).
    { unfold returned_for_good. rewrite Hpc in Hw.
      destruct Hw as (_ & Hb & Hg).
      split; [done|]. split.
      - destruct (sys_exited s) eqn:Hex; [|done]. by destruct (Hx eq_refl).
      - split; [done|].
        destruct (enableGateway gs) eqn:Hen; [left; by apply Hg|right; by apply Hgi]. }
    pose proof (exec_invariant returned_for_good gs w
                  (step_returned_for_good gs w) sched' _ _ Hr He')
      as (Hpc' & Hex' & _).
    by split.
Qed.

Lemma Fatal_and_return_exclude_witness :
  exists s,
    exec (ex_host (Some reg_reject) false [ex_foo]) ex_world
      [RunBody; RunBody; Go BinaryUnit] Sys_init = Some s /\
    sys_exited s = true /\ sys_pc s <> AtReturn /\
    step (ex_host (Some reg_reject) false [ex_foo]) ex_world RunBody s = None.
Proof.
  eexists.
  assert (Hx : exec (ex_host (Some reg_reject) false [ex_foo]) ex_world
                 [RunBody; RunBody; Go BinaryUnit] Sys_init = Some _)
    by (vm_compute; reflexivity).
  split; [exact Hx|]. split; [reflexivity|].
  destruct (proj1 (Fatal_and_return_exclude _ _ _ _ Hx) eq_refl) as [Hpc Hst].
  split; [exact Hpc | exact (Hst RunBody)].
Defined.

(** ** The middlewares *)

Lemma string_app_nil_r (s : string) : s +:+ "" = s.
Proof.
  induction s as [|c s IH]; [done|].
  change (String c (s +:+ "") = String c s). by rewrite IH.
Qed.

(** X20: the recover middleware never discards what the inner handler
    did: the handler's state is kept, the body it wrote stays at the front
    of the response, and a status line it sent stands.  Wrapping a handler
    twice is the same as wrapping it once, and the trace middleware passes
    every request, response and panic through unchanged. *)
Theorem recoverMiddleware_keeps_what_was_written {S : Type} (h : Handler S)
    (w : ResponseWriter) (r : Request) (st : S) :
  fst (fst (recoverMiddleware h w r st)) = fst (fst (h w r st)) /\
  (exists suffix,
     body (snd (fst (recoverMiddleware h w r st))) =
       body (snd (fst (h w r st))) +:+ suffix) /\
  (wroteHeader (snd (fst (h w r st))) = true ->
     wroteHeader (snd (fst (recoverMiddleware h w r st))) = true /\
     status (snd (fst (recoverMiddleware h w r st))) =
       status (snd (fst (h w r st)))) /\
  recoverMiddleware (recoverMiddleware h) w r st = recoverMiddleware h w r st /\
  traceMiddleware h w r st = h w r st.
Proof.
  unfold recoverMiddleware at 1 2 3 4.
  split; [|split; [|split; [|split]]].
  - by destruct (h w r st) as [[st' w'] [|v]].
  - destruct (h w r st) as [[st' w'] [|v]]; simpl.
    + exists "". by rewrite string_app_nil_r.
    + exists (Sprintf_v v). by destruct w' as [[] s b].
  - destruct (h w r st) as [[st' w'] [|v]]; simpl; [done|].
    destruct w' as [[] s b]; simpl; [done|discriminate].
  - apply recoverMiddleware_transparent, recoverMiddleware_returns.
  - reflexivity.
Qed.

Lemma recoverMiddleware_keeps_what_was_written_witness :
  status (snd (fst (recoverMiddleware ex_partial_then_panic new_response
                      {| req_method := "GET"; req_path := "/" |} tt))) = 200.
Proof.
  destruct (recoverMiddleware_keeps_what_was_written ex_partial_then_panic
              new_response {| req_method := "GET"; req_path := "/" |} tt)
    as (_ & _ & Hs & _).
  destruct (Hs eq_refl) as [_ ->]. reflexivity.
Defined.
